(** * convert_audio.py: batch conversion of .m4a files with ffmpeg

  A shallow embedding of [src/convert_audio.py] and the properties of its
  three functions [check_ffmpeg], [convert_audio] and [batch_convert].

  Python [str] values are modelled as [string]: the sequence of bytes of
  their UTF-8 encoding.  Every operation below only looks for the ASCII
  characters '/' and '.', which never occur inside a multi-byte UTF-8
  sequence, so splitting and searching agree with Python's. *)

From Stdlib Require Import List String Ascii Bool Arith ZArith Lia.
From Stdlib Require Import Numbers.DecimalString.
Import ListNotations.

Local Open Scope string_scope.
Local Open Scope list_scope.

(** ** Python string operations used by the program *)

Module PyStr.

(** [s.rfind(c)]: index of the last occurrence, [None] for Python's -1. *)
Fixpoint rfind (c : ascii) (s : string) : option nat :=
  match s with
  | EmptyString => None
  | String a s' =>
      match rfind c s' with
      | Some i => Some (S i)
      | None => if Ascii.eqb a c then Some 0 else None
      end
  end.

(** [c in s] *)
Fixpoint contains (c : ascii) (s : string) : bool :=
  match s with
  | EmptyString => false
  | String a s' => Ascii.eqb a c || contains c s'
  end.

(** [s.split(c)]: always at least one field. *)
Fixpoint split (c : ascii) (s : string) : list string :=
  match s with
  | EmptyString => [EmptyString]
  | String a s' =>
      if Ascii.eqb a c then EmptyString :: split c s'
      else match split c s' with
           | [] => [String a EmptyString]
           | f :: fs => String a f :: fs
           end
  end.

(** [sep.join(xs)] *)
Fixpoint join (sep : string) (xs : list string) : string :=
  match xs with
  | [] => EmptyString
  | [x] => x
  | x :: rest => x ++ sep ++ join sep rest
  end.

(** [s.endswith(suffix)] *)
Definition endswith (s suffix : string) : bool :=
  let n := String.length s in
  let k := String.length suffix in
  (k <=? n)%nat && String.eqb (substring (n - k) k s) suffix.

(** [s[:i]] *)
Definition take (i : nat) (s : string) : string := substring 0 i s.

(** [bool(s)] for a string: the empty string is falsy. *)
Definition truthy (s : string) : bool := negb (String.eqb s EmptyString).

(** ["%d" % n] *)
Definition of_Z (n : Z) : string := NilEmpty.string_of_int (Z.to_int n).

End PyStr.

(** ** pathlib (POSIX flavour)

  Only the part of [pathlib.PurePosixPath] that the program touches: the
  constructor, [str], [name], [stem], [parent] and the [/] operator.  A
  path is its root ("", "/" or "//") and the list of its components. *)

Record PurePath : Type := mkPath { root : string; tail : list string }.

Module Pathlib.

(** [posixpath.splitroot]: one leading slash or three and more give the
    root "/", exactly two give "//". *)
Definition splitroot (p : string) : string * string :=
  match p with
  | String "/" (String "/" (String "/" r)) => ("/", String "/" (String "/" r))
  | String "/" (String "/" r) => ("//", r)
  | String "/" r => ("/", r)
  | _ => ("", p)
  end.

(** The components kept by the parser: [x for x in rel.split('/') if x
    and x != '.']. *)
Definition keep (x : string) : bool :=
  PyStr.truthy x && negb (String.eqb x ".").

Definition parse_tail (rel : string) : list string :=
  filter keep (PyStr.split "/" rel).

(** [Path(s)] *)
Definition Path (s : string) : PurePath :=
  let (r, rel) := splitroot s in mkPath r (parse_tail rel).

(** [str(p)] *)
Definition str (p : PurePath) : string :=
  match root p, tail p with
  | EmptyString, [] => "."
  | r, t => r ++ PyStr.join "/" t
  end.

(** [p.name] *)
Definition name (p : PurePath) : string := last (tail p) EmptyString.

(** [p.parent]: a path without components is its own parent. *)
Definition parent (p : PurePath) : PurePath :=
  mkPath (root p) (removelast (tail p)).

(** [p.stem]: the name up to its last dot, when that dot is neither the
    first nor the last character (as in CPython up to 3.13; later versions
    differ only for names that end in a dot). *)
Definition stem (p : PurePath) : string :=
  let nm := name p in
  match PyStr.rfind "." nm with
  | Some i =>
      if ((0 <? i) && (i <? String.length nm - 1))%nat then PyStr.take i nm
      else nm
  | None => nm
  end.

(** [p / q] for a path [q]: an anchored right operand replaces the left
    one. *)
Definition join (p q : PurePath) : PurePath :=
  if PyStr.truthy (root q) then q
  else mkPath (root p) (tail p ++ tail q).

(** [p / s] for a string [s] *)
Definition div (p : PurePath) (s : string) : PurePath := join p (Path s).

(** [p._make_child_relpath(name)]: the child handed out by directory
    scanning; the name comes from the directory listing and is not
    parsed again. *)
Definition child (p : PurePath) (nm : string) : PurePath :=
  mkPath (root p) (tail p ++ [nm]).

End Pathlib.

Notation "p // s" := (Pathlib.div p s) (at level 40, left associativity).

(** ** The platform: everything outside the program

    The file system, the process table, the standard output and two
    Python built-ins whose text the program only passes on.  [W] is the
    state of the outside world; every call may change it. *)

(** The [OSError] subclasses the program can meet. *)
Inductive os_error : Type :=
| FileNotFoundError
| PermissionError
| OtherOSError.

(** What happens when a command is started and waited for. *)
Inductive spawn_result : Type :=
| Exited (returncode : Z)
| SpawnFailed (e : os_error).

(** A directory entry with what is below it; the entries of a directory
    come in the order the directory scan gives them. *)
#[warnings="-register-all"]
Inductive entry : Type :=
| FileEntry (name : string)
| DirEntry (name : string) (children : list entry).

(** What [stat] finds at a path.  [NoEntry] stands for the errors that
    [Path.exists()] and [Path.is_dir()] take for absence (ENOENT, ENOTDIR,
    EBADF, ELOOP); [StatFails] for every other error, such as a name that
    is too long or a parent that may not be searched, which both methods
    raise again. *)
Inductive stat_result : Type :=
| NoEntry
| IsFile
| IsDir (children : list entry)
| StatFails (e : os_error).

Class Platform (W : Type) : Type := {
  (** start the command, capture its output, wait for it *)
  os_spawn : list string -> W -> spawn_result * W;
  (** [Path.mkdir(parents=True, exist_ok=True)] *)
  os_mkdir : PurePath -> W -> option os_error * W;
  (** what is at a path, if anything *)
  os_stat : PurePath -> W -> stat_result;
  (** whether [sys.stdout] can encode a text the program interpolates
      into a line; the program's own constant text is taken to be
      encodable *)
  py_encodable : string -> bool;
  (** [str] of a list of strings, as ['%s' % cmd] prints it *)
  py_repr : list string -> string;
  (** [repr(signal.Signals(n))], [None] where Python raises [ValueError] *)
  py_signal : Z -> option string
}.

(** ** Exceptions, observable events and the effect monad *)

Inductive exn : Type :=
| CalledProcessError (returncode : Z) (cmd : list string)
| OSError (e : os_error)
| UnicodeEncodeError (text : string).

(** The values [convert_audio] puts in the second slot of its result. *)
Inductive pyval : Type :=
| VPath (p : PurePath)
| VStr (s : string).

(** The lines [batch_convert] prints, by print statement; each carries the
    values interpolated into it. *)
Inductive line : Type :=
| L_no_dir (input_dir : string)
| L_no_files (input_dir : string)
| L_found (n : nat)
| L_format (output_format : string) (* shown in upper case *)
| L_quality (quality : string)
| L_rule
| L_converting (idx total : nat) (name : string)
| L_ok (result : string)
| L_failed (result : string)
| L_done
| L_ok_count (n : nat)
| L_fail_count (n : nat).

Inductive event : Type :=
| Spawn (cmd : list string)
| Mkdir (p : PurePath)
| Print (l : line).

Inductive outcome (A : Type) : Type :=
| Ret (a : A)
| Raise (e : exn).

Arguments Ret {A} a.
Arguments Raise {A} e.

(** A computation: from a world to an outcome, the world after, and the
    events it caused, oldest first. *)
Definition M (W A : Type) : Type := W -> outcome A * W * list event.

Definition ret {W A} (a : A) : M W A := fun w => (Ret a, w, []).

Definition raise {W A} (e : exn) : M W A := fun w => (Raise e, w, []).

Definition bind {W A B} (m : M W A) (k : A -> M W B) : M W B :=
  fun w =>
    match m w with
    | (Ret a, w1, t1) =>
        match k a w1 with
        | (r, w2, t2) => (r, w2, t1 ++ t2)
        end
    | (Raise e, w1, t1) => (Raise e, w1, t1)
    end.

(** [try: m except ...: h e]; the handler decides which exceptions it
    takes and re-raises the others. *)
Definition try_except {W A} (m : M W A) (h : exn -> M W A) : M W A :=
  fun w =>
    match m w with
    | (Ret a, w1, t1) => (Ret a, w1, t1)
    | (Raise e, w1, t1) =>
        match h e w1 with
        | (r, w2, t2) => (r, w2, t1 ++ t2)
        end
    end.

(** The text a line interpolates, if any.  The format is shown in upper
    case, which the standard output can encode exactly when it can
    encode the format itself. *)
Definition line_text (l : line) : option string :=
  match l with
  | L_no_dir input_dir | L_no_files input_dir => Some input_dir
  | L_format output_format => Some output_format
  | L_quality quality => Some quality
  | L_converting _ _ name => Some name
  | L_ok result | L_failed result => Some result
  | L_found _ | L_rule | L_done | L_ok_count _ | L_fail_count _ => None
  end.

(** [print(...)]: a line whose interpolated text the standard output
    cannot encode is not written; [UnicodeEncodeError] is raised. *)
Definition print {W} {platform : Platform W} (l : line) : M W unit :=
  fun w =>
    match line_text l with
    | Some text =>
        if py_encodable text then (Ret tt, w, [Print l])
        else (Raise (UnicodeEncodeError text), w, [])
    | None => (Ret tt, w, [Print l])
    end.

Notation "x <- m ;; k" := (bind m (fun x => k))
  (at level 61, m at next level, right associativity).
Notation "m ;;; k" := (bind m (fun _ => k))
  (at level 61, right associativity).

(** Projections of a finished run. *)
Definition result_of {W A} (r : outcome A * W * list event) : outcome A := fst (fst r).
Definition world_of {W A} (r : outcome A * W * list event) : W := snd (fst r).
Definition events_of {W A} (r : outcome A * W * list event) : list event := snd r.

(** The commands started, in order. *)
Fixpoint spawned (t : list event) : list (list string) :=
  match t with
  | [] => []
  | Spawn cmd :: t' => cmd :: spawned t'
  | _ :: t' => spawned t'
  end.

(** The directories asked for, in order. *)
Fixpoint mkdirs (t : list event) : list PurePath :=
  match t with
  | [] => []
  | Mkdir p :: t' => p :: mkdirs t'
  | _ :: t' => mkdirs t'
  end.

(** The lines printed, in order. *)
Fixpoint printed (t : list event) : list line :=
  match t with
  | [] => []
  | Print l :: t' => l :: printed t'
  | _ :: t' => printed t'
  end.

(** ** Directory scanning: [Path.glob('*.m4a')] and [Path.rglob('*.m4a')] *)

Definition entry_name (e : entry) : string :=
  match e with
  | FileEntry nm => nm
  | DirEntry nm _ => nm
  end.

(** [fnmatch] of a name against the pattern [*.m4a] (case-sensitive, as on
    POSIX): the name ends with [.m4a].  Files and directories are matched
    alike, names with a leading dot included. *)
Definition is_m4a (nm : string) : bool := PyStr.endswith nm ".m4a".

(** The matching children of one directory, as paths below [p]. *)
Definition select_m4a (p : PurePath) (es : list entry) : list PurePath :=
  map (fun e => Pathlib.child p (entry_name e))
      (filter (fun e => is_m4a (entry_name e)) es).

(** [p.glob('*.m4a')] on a directory with entries [es]. *)
Definition glob_m4a (p : PurePath) (es : list entry) : list PurePath :=
  select_m4a p es.

(** What [rglob] finds inside one entry of [p]: nothing in a file; in a
    directory, its matching children first, then every subdirectory in
    scan order, each with all that is below it. *)
Fixpoint rglob_below (p : PurePath) (e : entry) {struct e} : list PurePath :=
  match e with
  | FileEntry _ => []
  | DirEntry nm sub =>
      let q := Pathlib.child p nm in
      select_m4a q sub ++ flat_map (rglob_below q) sub
  end.

(** [p.rglob('*.m4a')] on a directory with entries [es]: the walk starts
    with the directory itself. *)
Definition rglob_m4a (p : PurePath) (es : list entry) : list PurePath :=
  select_m4a p es ++ flat_map (rglob_below p) es.

(** The list either scan makes of what is at [p]; nothing where there is
    no directory to scan. *)
Definition scan (recursive : bool) (p : PurePath) (st : stat_result) : list PurePath :=
  match st with
  | IsDir es => if recursive then rglob_m4a p es else glob_m4a p es
  | _ => []
  end.

(** Induction over a tree: a directory may assume the property of all its
    entries. *)
Fixpoint entry_induction (P : entry -> Prop)
    (Hfile : forall nm, P (FileEntry nm))
    (Hdir : forall nm sub, Forall P sub -> P (DirEntry nm sub))
    (e : entry) {struct e} : P e :=
  match e with
  | FileEntry nm => Hfile nm
  | DirEntry nm sub =>
      Hdir nm sub
        ((fix all (l : list entry) : Forall P l :=
            match l with
            | [] => Forall_nil P
            | x :: l' => Forall_cons x (entry_induction P Hfile Hdir x) (all l')
            end) sub)
  end.

(** ** The program *)

Section Program.

Context {W : Type} {platform : Platform W}.

(** [subprocess.run(cmd, stdout=PIPE, stderr=PIPE, check=True)]: the
    captured output is never read by the program; a non-zero return code
    raises [CalledProcessError], a command that cannot be started raises
    the [OSError] of the operating system. *)
Definition subprocess_run (cmd : list string) : M W unit :=
  fun w =>
    match os_spawn cmd w with
    | (Exited 0, w') => (Ret tt, w', [Spawn cmd])
    | (Exited rc, w') => (Raise (CalledProcessError rc cmd), w', [Spawn cmd])
    | (SpawnFailed e, w') => (Raise (OSError e), w', [Spawn cmd])
    end.

(** [out_dir.mkdir(parents=True, exist_ok=True)] *)
Definition mkdir_parents (p : PurePath) : M W unit :=
  fun w =>
    match os_mkdir p w with
    | (None, w') => (Ret tt, w', [Mkdir p])
    | (Some e, w') => (Raise (OSError e), w', [Mkdir p])
    end.

(** [str(e)] for a [CalledProcessError]. *)
Definition CalledProcessError_str (returncode : Z) (cmd : list string) : string :=
  if (returncode <? 0)%Z then
    match py_signal (- returncode) with
    | Some sig => "Command '" ++ py_repr cmd ++ "' died with " ++ sig ++ "."
    | None =>
        "Command '" ++ py_repr cmd ++ "' died with unknown signal "
          ++ PyStr.of_Z (- returncode) ++ "."
    end
  else
    "Command '" ++ py_repr cmd ++ "' returned non-zero exit status "
      ++ PyStr.of_Z returncode ++ ".".

(** [str(v)], as an f-string formats it. *)
Definition py_str (v : pyval) : string :=
  match v with
  | VPath p => Pathlib.str p
  | VStr s => s
  end.

(** *** check_ffmpeg (lines 14-23) *)
Definition check_ffmpeg : M W bool :=
  try_except
    (subprocess_run ["ffmpeg"; "-version"] ;;; ret true)
    (fun e =>
       match e with
       | CalledProcessError _ _ => ret false
       | OSError FileNotFoundError => ret false
       | _ => raise e
       end).

(** *** convert_audio (lines 26-72) *)

(** Lines 39-43: the output directory.  [if output_dir:] takes [None] and
    the empty string as absent. *)
Definition resolve_out_dir (input_path : PurePath) (output_dir : option string)
  : M W PurePath :=
  match output_dir with
  | Some d =>
      if PyStr.truthy d then
        let out_dir := Pathlib.Path d in
        mkdir_parents out_dir ;;; ret out_dir
      else ret (Pathlib.parent input_path)
  | None => ret (Pathlib.parent input_path)
  end.

(** Line 46: the output file. *)
Definition output_file_in (out_dir input_path : PurePath) (output_format : string)
  : PurePath :=
  out_dir // (Pathlib.stem input_path ++ "." ++ output_format).

(** Lines 52-60: the arguments that choose the encoder. *)
Definition codec_args (output_format quality : string) : list string :=
  if String.eqb output_format "mp3" then
    if String.eqb quality "high" then
      ["-codec:a"; "libmp3lame"; "-b:a"; "320k"]
    else if String.eqb quality "medium" then
      ["-codec:a"; "libmp3lame"; "-b:a"; "192k"]
    else
      ["-codec:a"; "libmp3lame"; "-b:a"; "128k"]
  else if String.eqb output_format "wav" then
    ["-codec:a"; "pcm_s16le"]
  else [].

(** Lines 49-62: the command. *)
Definition ffmpeg_cmd (input_path output_file : PurePath)
    (output_format quality : string) : list string :=
  (["ffmpeg"; "-i"; Pathlib.str input_path]
     ++ codec_args output_format quality)
    ++ ["-y"; Pathlib.str output_file].

Definition convert_audio (input_file : PurePath) (output_format : string)
    (output_dir : option string) (quality : string) : M W (bool * pyval) :=
  let input_path := input_file in
  out_dir <- resolve_out_dir input_path output_dir ;;
  let output_file := output_file_in out_dir input_path output_format in
  let cmd := ffmpeg_cmd input_path output_file output_format quality in
  try_except
    (subprocess_run cmd ;;; ret (true, VPath output_file))
    (fun e =>
       match e with
       | CalledProcessError rc c => ret (false, VStr (CalledProcessError_str rc c))
       | _ => raise e
       end).

(** *** batch_convert (lines 75-125) *)

(** [input_path.exists()]: an error of [stat] that does not mean absence
    is raised. *)
Definition path_exists (p : PurePath) : M W bool :=
  fun w =>
    match os_stat p w with
    | NoEntry => (Ret false, w, [])
    | StatFails e => (Raise (OSError e), w, [])
    | _ => (Ret true, w, [])
    end.

(** Lines 93-96: [list(input_path.rglob('*.m4a'))] or
    [list(input_path.glob('*.m4a'))]; scanning something that is not a
    directory gives nothing, and the [is_dir()] test the scan starts with
    raises the errors of [stat] that [exists()] raises. *)
Definition discover (recursive : bool) (input_path : PurePath) : M W (list PurePath) :=
  fun w =>
    match os_stat input_path w with
    | StatFails e => (Raise (OSError e), w, [])
    | st => (Ret (scan recursive input_path st), w, [])
    end.

(** Lines 111-120: the body of the loop for one file; gives the two
    counters after it. *)
Definition process_file (idx total : nat) (m4a_file : PurePath)
    (output_format : string) (output_dir : option string) (quality : string)
    (success_count fail_count : nat) : M W (nat * nat) :=
  print (L_converting idx total (Pathlib.name m4a_file)) ;;;
  r <- convert_audio m4a_file output_format output_dir quality ;;
  let (success, result) := r in
  if success then
    print (L_ok (py_str result)) ;;; ret (success_count + 1, fail_count)
  else
    print (L_failed (py_str result)) ;;; ret (success_count, fail_count + 1).

(** Lines 110-120: [for idx, m4a_file in enumerate(m4a_files, 1)]. *)
Fixpoint batch_loop (m4a_files : list PurePath) (idx total : nat)
    (output_format : string) (output_dir : option string) (quality : string)
    (success_count fail_count : nat) : M W (nat * nat) :=
  match m4a_files with
  | [] => ret (success_count, fail_count)
  | m4a_file :: rest =>
      c <- process_file idx total m4a_file output_format output_dir quality
             success_count fail_count ;;
      batch_loop rest (idx + 1) total output_format output_dir quality
        (fst c) (snd c)
  end.

Definition batch_convert (input_dir output_format : string)
    (output_dir : option string) (quality : string) (recursive : bool)
  : M W unit :=
  let input_path := Pathlib.Path input_dir in
  ex <- path_exists input_path ;;
  if negb ex then print (L_no_dir input_dir)
  else
    m4a_files <- discover recursive input_path ;;
    match m4a_files with
    | [] => print (L_no_files input_dir)
    | _ :: _ =>
        print (L_found (List.length m4a_files)) ;;;
        print (L_format output_format) ;;;
        print (L_quality quality) ;;;
        print L_rule ;;;
        c <- batch_loop m4a_files 1 (List.length m4a_files)
               output_format output_dir quality 0 0 ;;
        print L_rule ;;;
        print L_done ;;;
        print (L_ok_count (fst c)) ;;;
        print (L_fail_count (snd c))
    end.

End Program.

(** The path reached from [p] by the names [rel], as repeated
    [_make_child_relpath] builds it. *)
Definition descend (p : PurePath) (rel : list string) : PurePath :=
  mkPath (root p) (tail p ++ rel).

(** [at_path es rel e]: following the names [rel] from a directory with
    entries [es] ends at the entry [e]; the length of [rel] is the depth
    of [e] below that directory. *)
Inductive at_path : list entry -> list string -> entry -> Prop :=
| at_child es e :
    In e es -> at_path es [entry_name e] e
| at_deeper es nm sub rel e :
    In (DirEntry nm sub) es -> at_path sub rel e -> at_path es (nm :: rel) e.

(** The pure part of lines 39-43: the directory [convert_audio] writes to. *)
Definition out_dir_of (input_path : PurePath) (output_dir : option string) : PurePath :=
  match output_dir with
  | Some d => if PyStr.truthy d then Pathlib.Path d else Pathlib.parent input_path
  | None => Pathlib.parent input_path
  end.

(** The files announced by the loop, with their index, in order. *)
Fixpoint announced (t : list event) : list (nat * string) :=
  match t with
  | [] => []
  | Print (L_converting idx _ nm) :: t' => (idx, nm) :: announced t'
  | _ :: t' => announced t'
  end.

(** ** A scripted platform

    A world that answers each started command with the next reply of a
    script, and has one directory.  With the script exhausted the
    command is not found. *)

Record sim : Type := mkSim {
  sim_replies : list spawn_result;
  sim_mkdir : option os_error;
  sim_dir : string;
  sim_entries : list entry
}.

Definition path_eqb (p q : PurePath) : bool :=
  String.eqb (root p) (root q)
  && Nat.eqb (List.length (tail p)) (List.length (tail q))
  && forallb (fun xy => String.eqb (fst xy) (snd xy)) (combine (tail p) (tail q)).

Definition sim_spawn (cmd : list string) (w : sim) : spawn_result * sim :=
  match sim_replies w with
  | [] => (SpawnFailed FileNotFoundError, w)
  | r :: rest => (r, mkSim rest (sim_mkdir w) (sim_dir w) (sim_entries w))
  end.

(** [stat] on the scripted platform: a path with a component of more than
    255 bytes fails with an error that is not absence (the name is too
    long); the one directory is there; nothing else is. *)
Definition sim_stat (p : PurePath) (w : sim) : stat_result :=
  if existsb (fun c => 255 <? String.length c)%nat (tail p) then
    StatFails OtherOSError
  else if path_eqb p (Pathlib.Path (sim_dir w)) then IsDir (sim_entries w)
  else NoEntry.

(** The list printed with every argument in single quotes: Python's text
    for arguments without quotes, backslashes or control characters. *)
Definition sim_repr (cmd : list string) : string :=
  ("[" ++ PyStr.join ", " (map (fun a : string => "'" ++ a ++ "'") cmd) ++ "]")%string.

(** The standard output of the scripted platform is strict about one
    thing: it refuses a text that holds the byte 255, which occurs in no
    UTF-8 text. *)
Definition sim_encodable (text : string) : bool :=
  negb (PyStr.contains (ascii_of_nat 255) text).

#[export] Instance sim_platform : Platform sim := {
  os_spawn := sim_spawn;
  os_mkdir := fun _ w => (sim_mkdir w, w);
  os_stat := sim_stat;
  py_encodable := sim_encodable;
  py_repr := sim_repr;
  py_signal := fun _ => None
}.

(** The tree of the scenario: two matches at depth 1, one at depth 2. *)
Definition music_entries : list entry :=
  [FileEntry "a.m4a"; FileEntry "notes.txt";
   DirEntry "sub" [FileEntry "c.m4a"; FileEntry "cover.jpg"];
   FileEntry "b.m4a"].

Definition music_world (replies : list spawn_result) : sim :=
  mkSim replies None "music" music_entries.

(** Whether every turn of the loop over [m4a_files], started in world
    [w], runs to its end: the name of the file can be written, the
    conversion comes back with a result (a success or a failure) instead
    of an exception, and the line with that result can be written. *)
Fixpoint turns_complete {W : Type} {platform : Platform W}
    (m4a_files : list PurePath) (output_format : string)
    (output_dir : option string) (quality : string) (w : W) : bool :=
  match m4a_files with
  | [] => true
  | m4a_file :: rest =>
      py_encodable (Pathlib.name m4a_file)
      && match convert_audio m4a_file output_format output_dir quality w with
         | (Ret (_, result), w1, _) =>
             py_encodable (py_str result)
             && turns_complete rest output_format output_dir quality w1
         | (Raise _, _, _) => false
         end
  end.


(** An event that is not a printed line. *)
Definition quiet (ev : event) : Prop :=
  match ev with
  | Print _ => False
  | _ => True
  end.

(** An event the loop of [batch_convert] can cause. *)
Definition loop_event (ev : event) : Prop :=
  match ev with
  | Spawn _ | Mkdir _ => True
  | Print (L_converting _ _ _) | Print (L_ok _) | Print (L_failed _) => True
  | Print _ => False
  end.

(** The command of the loop for one file: the one [convert_audio] builds
    from the fixed batch parameters and that file. *)
Definition conversion_cmd (output_format : string) (output_dir : option string)
    (quality : string) (m4a_file : PurePath) : list string :=
  ffmpeg_cmd m4a_file
    (output_file_in (out_dir_of m4a_file output_dir) m4a_file output_format)
    output_format quality.

(** The number of success lines and of failure lines among the events. *)
Fixpoint ok_lines (t : list event) : nat :=
  match t with
  | [] => 0
  | Print (L_ok _) :: t' => S (ok_lines t')
  | _ :: t' => ok_lines t'
  end.

Fixpoint failed_lines (t : list event) : nat :=
  match t with
  | [] => 0
  | Print (L_failed _) :: t' => S (failed_lines t')
  | _ :: t' => failed_lines t'
  end.


(** *** main (lines 128-186)

    [parser.parse_args()] belongs to [argparse]; [main] is modelled from
    the parsed arguments on.  The namespace has the five attributes the
    parser declares. *)

Record Namespace : Type := mkArgs {
  args_input_dir : string;
  args_format : string;
  args_output : option string;
  args_quality : string;
  args_recursive : bool
}.

(** The [choices] of the parser for the format (line 154). *)
Definition format_choices : list string := ["mp3"; "wav"].

(** The probe of [check_ffmpeg]. *)
Definition probe_cmd : list string := ["ffmpeg"; "-version"].

(** The lines [main] prints itself, by print statement. *)
Inductive main_line : Type :=
| M_checking
| M_not_found
| M_hint_macos
| M_hint_ubuntu
| M_hint_windows
| M_ready.

(** What [main] causes: its own lines, and the events of the functions it
    calls. *)
Inductive main_event : Type :=
| Main_print (l : main_line)
| Core (ev : event).

(** How [main] ends: it returns, [sys.exit(code)] ends it, or an exception
    leaves it. *)
Inductive main_outcome : Type :=
| Returned
| SystemExit (code : Z)
| Uncaught (e : exn).

(** The exit status of the process: 0 after a return, the code of
    [sys.exit], 1 after an uncaught exception. *)
Definition exit_status (o : main_outcome) : Z :=
  match o with
  | Returned => 0
  | SystemExit code => code
  | Uncaught _ => 1
  end.

Definition main {W : Type} {platform : Platform W} (args : Namespace)
  : W -> main_outcome * W * list main_event :=
  fun w =>
    match check_ffmpeg w with
    | (Ret false, w1, t1) =>
        (SystemExit 1, w1,
         Main_print M_checking :: map Core t1
           ++ [Main_print M_not_found; Main_print M_hint_macos;
               Main_print M_hint_ubuntu; Main_print M_hint_windows])
    | (Ret true, w1, t1) =>
        match batch_convert (args_input_dir args) (args_format args)
                (args_output args) (args_quality args) (args_recursive args) w1
        with
        | (Ret _, w2, t2) =>
            (Returned, w2,
             Main_print M_checking :: map Core t1
               ++ Main_print M_ready :: map Core t2)
        | (Raise e, w2, t2) =>
            (Uncaught e, w2,
             Main_print M_checking :: map Core t1
               ++ Main_print M_ready :: map Core t2)
        end
    | (Raise e, w1, t1) =>
        (Uncaught e, w1, Main_print M_checking :: map Core t1)
    end.

(** The events of the called functions among those of [main]. *)
Fixpoint core_events (t : list main_event) : list event :=
  match t with
  | [] => []
  | Core ev :: t' => ev :: core_events t'
  | Main_print _ :: t' => core_events t'
  end.

(** The encoder settings the program knows. *)
Definition encoder_settings : list (list string) :=
  [["-codec:a"; "libmp3lame"; "-b:a"; "320k"];
   ["-codec:a"; "libmp3lame"; "-b:a"; "192k"];
   ["-codec:a"; "libmp3lame"; "-b:a"; "128k"];
   ["-codec:a"; "pcm_s16le"]].

(** A tree with the same file name at depth 1 and at depth 2. *)
Definition album_entries : list entry :=
  [FileEntry "a.m4a"; DirEntry "live" [FileEntry "a.m4a"]].

Definition album_world (replies : list spawn_result) : sim :=
  mkSim replies None "album" album_entries.



(** A name of 256 bytes. *)
Definition long_name : string := String.concat "" (repeat "a" 256).

(** The line that reports the result of one conversion (lines 116 and
    119). *)
Definition result_line (success : bool) (result : pyval) : line :=
  if success then L_ok (py_str result) else L_failed (py_str result).

(** The lines before the loop of a batch with files (lines 102-105), and
    those after it (lines 122-125). *)
Definition header (n : nat) (fmt q : string) : list event :=
  [Print (L_found n); Print (L_format fmt); Print (L_quality q); Print L_rule].

Definition footer (c : nat * nat) : list event :=
  [Print L_rule; Print L_done; Print (L_ok_count (fst c));
   Print (L_fail_count (snd c))].

(** * Properties *)

(** ** Strings and paths *)

Lemma contains_app (c : ascii) (s t : string) :
  PyStr.contains c (s ++ t) = PyStr.contains c s || PyStr.contains c t.
Proof.
  induction s as [|a s IH]; simpl; [reflexivity|].
  now rewrite IH, orb_assoc.
Qed.

Lemma split_without_sep (c : ascii) (s : string) :
  PyStr.contains c s = false -> PyStr.split c s = [s].
Proof.
  induction s as [|a s IH]; simpl; intros H; [reflexivity|].
  apply orb_false_iff in H as [Ha Hs].
  now rewrite Ha, (IH Hs).
Qed.

Lemma splitroot_relative (s : string) :
  PyStr.contains "/" s = false -> Pathlib.splitroot s = (EmptyString, s).
Proof.
  destruct s as [|a s]; [reflexivity|].
  simpl. intros H. apply orb_false_iff in H as [Ha _].
  unfold Pathlib.splitroot.
  destruct a as [[] [] [] [] [] [] [] []]; try reflexivity; discriminate.
Qed.

(** A string without a slash that is neither empty nor a single dot is
    one path component. *)
Lemma Path_component (s : string) :
  PyStr.contains "/" s = false -> Pathlib.keep s = true ->
  Pathlib.Path s = mkPath EmptyString [s].
Proof.
  intros Hs Hk. unfold Pathlib.Path, Pathlib.parse_tail.
  rewrite (splitroot_relative _ Hs), (split_without_sep _ _ Hs).
  simpl. now rewrite Hk.
Qed.

Lemma div_component (p : PurePath) (s : string) :
  PyStr.contains "/" s = false -> Pathlib.keep s = true ->
  p // s = Pathlib.child p s.
Proof.
  intros Hs Hk. unfold Pathlib.div. now rewrite (Path_component _ Hs Hk).
Qed.

Lemma name_child (p : PurePath) (s : string) :
  Pathlib.name (Pathlib.child p s) = s.
Proof.
  unfold Pathlib.name, Pathlib.child. simpl. apply last_last.
Qed.

Lemma parent_child (p : PurePath) (s : string) :
  Pathlib.parent (Pathlib.child p s) = p.
Proof.
  unfold Pathlib.parent, Pathlib.child. simpl.
  rewrite removelast_last. now destruct p.
Qed.

Lemma keep_app_dot (s t : string) :
  s <> EmptyString \/ t <> EmptyString -> Pathlib.keep (s ++ "." ++ t) = true.
Proof.
  intros H. unfold Pathlib.keep, PyStr.truthy.
  destruct s as [|a s].
  - destruct t as [|b t]; [destruct H as [H|H]; now elim H|reflexivity].
  - simpl. destruct s as [|a' s]; simpl.
    + destruct (Ascii.eqb a "."); reflexivity.
    + destruct (Ascii.eqb a "."); reflexivity.
Qed.

Lemma rfind_none (c : ascii) (s : string) :
  PyStr.contains c s = false -> PyStr.rfind c s = None.
Proof.
  induction s as [|a s IH]; simpl; intros H; [reflexivity|].
  apply orb_false_iff in H as [Ha Hs].
  now rewrite (IH Hs), Ha.
Qed.

Lemma rfind_last_dot (base ext : string) :
  PyStr.contains "." ext = false ->
  PyStr.rfind "." (base ++ "." ++ ext) = Some (String.length base).
Proof.
  intros H. induction base as [|a base IH]; simpl.
  - now rewrite (rfind_none _ _ H).
  - simpl in IH. now rewrite IH.
Qed.

Lemma take_app (s t : string) : PyStr.take (String.length s) (s ++ t) = s.
Proof.
  unfold PyStr.take. induction s as [|a s IH]; simpl.
  - now destruct t.
  - now rewrite IH.
Qed.

Lemma length_app (s t : string) :
  String.length (s ++ t) = String.length s + String.length t.
Proof.
  induction s as [|a s IH]; simpl; [reflexivity|now rewrite IH].
Qed.

(** The stem of [base.ext] is [base]. *)
Lemma stem_strips_extension (p : PurePath) (base ext : string) :
  Pathlib.name p = (base ++ "." ++ ext)%string ->
  base <> EmptyString -> ext <> EmptyString ->
  PyStr.contains "." ext = false ->
  Pathlib.stem p = base.
Proof.
  intros Hn Hb He Hd. unfold Pathlib.stem. rewrite Hn.
  rewrite (rfind_last_dot _ _ Hd), length_app. simpl String.length.
  assert (Lb : 0 < String.length base) by (destruct base; simpl; [now elim Hb|lia]).
  assert (Le : 0 < String.length ext) by (destruct ext; simpl; [now elim He|lia]).
  replace (0 <? String.length base)%nat with true
    by (symmetry; now apply Nat.ltb_lt).
  replace (String.length base <? String.length base + S (String.length ext) - 1)%nat
    with true by (symmetry; apply Nat.ltb_lt; lia).
  simpl. apply take_app.
Qed.

(** ** Events *)

Lemma spawned_app (t u : list event) : spawned (t ++ u) = spawned t ++ spawned u.
Proof.
  induction t as [|[c|p|l] t IH]; simpl; auto. now rewrite IH.
Qed.

Lemma mkdirs_app (t u : list event) : mkdirs (t ++ u) = mkdirs t ++ mkdirs u.
Proof.
  induction t as [|[c|p|l] t IH]; simpl; auto. now rewrite IH.
Qed.

Lemma printed_app (t u : list event) : printed (t ++ u) = printed t ++ printed u.
Proof.
  induction t as [|[c|p|l] t IH]; simpl; auto. now rewrite IH.
Qed.

Lemma announced_app (t u : list event) : announced (t ++ u) = announced t ++ announced u.
Proof.
  induction t as [|[c|p|[]] t IH]; simpl; auto. now rewrite IH.
Qed.

(** ** The conversion engine *)

Section Engine.

Context {W : Type} {platform : Platform W}.

(** One run of [convert_audio], step by step. *)
Lemma convert_audio_run input fmt od q (w : W) :
  convert_audio input fmt od q w =
  match resolve_out_dir input od w with
  | (Ret out_dir, w1, t1) =>
      let output_file := output_file_in out_dir input fmt in
      let cmd := ffmpeg_cmd input output_file fmt q in
      match os_spawn cmd w1 with
      | (Exited rc, w2) =>
          (if (rc =? 0)%Z then Ret (true, VPath output_file)
           else Ret (false, VStr (CalledProcessError_str rc cmd)),
           w2, t1 ++ [Spawn cmd])
      | (SpawnFailed e, w2) => (Raise (OSError e), w2, t1 ++ [Spawn cmd])
      end
  | (Raise e, w1, t1) => (Raise e, w1, t1)
  end.
Proof.
  unfold convert_audio, bind, try_except, subprocess_run, ret, raise.
  destruct (resolve_out_dir input od w) as [[[out_dir|e] w1] t1]; [|reflexivity].
  cbv zeta.
  destruct (os_spawn _ w1) as [[rc|e] w2]; [destruct rc|]; simpl;
    now rewrite ?app_nil_r.
Qed.

(** One run of the output directory resolution. *)
Lemma resolve_out_dir_run input od (w : W) :
  resolve_out_dir input od w =
  match od with
  | Some d =>
      if PyStr.truthy d then
        match os_mkdir (Pathlib.Path d) w with
        | (None, w') => (Ret (Pathlib.Path d), w', [Mkdir (Pathlib.Path d)])
        | (Some e, w') => (Raise (OSError e), w', [Mkdir (Pathlib.Path d)])
        end
      else (Ret (Pathlib.parent input), w, [])
  | None => (Ret (Pathlib.parent input), w, [])
  end.
Proof.
  unfold resolve_out_dir, bind, mkdir_parents, ret.
  destruct od as [d|]; [|reflexivity].
  destruct (PyStr.truthy d); [|reflexivity].
  now destruct (os_mkdir _ w) as [[e|] w'].
Qed.

Lemma resolve_out_dir_value input od (w : W) out_dir :
  result_of (resolve_out_dir input od w) = Ret out_dir ->
  out_dir = out_dir_of input od.
Proof.
  rewrite resolve_out_dir_run. unfold out_dir_of, result_of.
  destruct od as [d|]; [destruct (PyStr.truthy d)|]; simpl; try congruence.
  destruct (os_mkdir _ w) as [[e|] w']; simpl; congruence.
Qed.

Lemma resolve_out_dir_spawns_nothing input od (w : W) :
  spawned (events_of (resolve_out_dir input od w)) = [].
Proof.
  rewrite resolve_out_dir_run.
  destruct od as [d|]; [destruct (PyStr.truthy d)|]; try reflexivity.
  now destruct (os_mkdir _ w) as [[e|] w'].
Qed.

Lemma resolve_out_dir_mkdirs input od (w : W) :
  mkdirs (events_of (resolve_out_dir input od w)) =
  match od with
  | Some d => if PyStr.truthy d then [Pathlib.Path d] else []
  | None => []
  end.
Proof.
  rewrite resolve_out_dir_run.
  destruct od as [d|]; [destruct (PyStr.truthy d)|]; try reflexivity.
  now destruct (os_mkdir _ w) as [[e|] w'].
Qed.

(** Once the output directory is there, exactly one command is started:
    the one built from the request. *)
Lemma convert_audio_spawned input fmt od q (w : W) out_dir :
  result_of (resolve_out_dir input od w) = Ret out_dir ->
  spawned (events_of (convert_audio input fmt od q w)) =
  [ffmpeg_cmd input (output_file_in out_dir input fmt) fmt q].
Proof.
  intros H. rewrite convert_audio_run.
  pose proof (resolve_out_dir_spawns_nothing input od w) as S0.
  destruct (resolve_out_dir input od w) as [[[d|e] w1] t1];
    unfold result_of in H; simpl in H; [|discriminate].
  injection H as ->. unfold events_of in S0. simpl in S0. cbv zeta.
  destruct (os_spawn _ w1) as [[rc|e] w2]; unfold events_of; simpl;
    now rewrite spawned_app, S0.
Qed.

(** Every command started by [convert_audio] is the one built from the
    request, with the directory of lines 39-43. *)
Lemma convert_audio_spawned_in input fmt od q (w : W) cmd :
  In cmd (spawned (events_of (convert_audio input fmt od q w))) ->
  cmd = ffmpeg_cmd input (output_file_in (out_dir_of input od) input fmt) fmt q.
Proof.
  destruct (result_of (resolve_out_dir input od w)) as [d|e] eqn:R.
  - rewrite (convert_audio_spawned _ _ _ _ _ _ R).
    apply resolve_out_dir_value in R. subst d.
    intros [<-|[]]. reflexivity.
  - rewrite convert_audio_run.
    pose proof (resolve_out_dir_spawns_nothing input od w) as S0.
    destruct (resolve_out_dir input od w) as [[[d|e'] w1] t1];
      unfold result_of in R; simpl in R; [discriminate|].
    unfold events_of in *. simpl in *. rewrite S0. intros [].
Qed.

End Engine.

Section EngineClaims.

Context {W : Type} {platform : Platform W}.

(** C1 (as amended): once the output directory is resolved, [convert_audio]
    starts the tool exactly once and maps what happens to it: exit code 0
    gives success with the resolved output path; a non-zero exit code gives
    failure with the text of the [CalledProcessError], which for a positive
    code names the command and the exit status; a tool that cannot be
    started is not turned into a failure value: the error of the
    operating system leaves [convert_audio] as an exception. *)
Theorem convert_audio_outcome input fmt od q (w w1 : W) out_dir t1 :
  resolve_out_dir input od w = (Ret out_dir, w1, t1) ->
  let output_file := output_file_in out_dir input fmt in
  let cmd := ffmpeg_cmd input output_file fmt q in
  let run := convert_audio input fmt od q w in
  spawned (events_of run) = [cmd] /\
  match fst (os_spawn cmd w1) with
  | Exited rc =>
      if (rc =? 0)%Z then result_of run = Ret (true, VPath output_file)
      else
        result_of run = Ret (false, VStr (CalledProcessError_str rc cmd)) /\
        ((0 < rc)%Z ->
         CalledProcessError_str rc cmd =
         ("Command '" ++ py_repr cmd ++ "' returned non-zero exit status "
            ++ PyStr.of_Z rc ++ ".")%string)
  | SpawnFailed e => result_of run = Raise (OSError e)
  end.
Proof.
  intros R output_file cmd run. split.
  - apply convert_audio_spawned. unfold result_of. now rewrite R.
  - subst run cmd output_file. rewrite convert_audio_run, R. cbv zeta.
    destruct (os_spawn _ w1) as [[rc|e] w2]; simpl; [|reflexivity].
    destruct (rc =? 0)%Z eqn:Z0; [reflexivity|]. split; [reflexivity|].
    intros Hpos. unfold CalledProcessError_str.
    now replace (rc <? 0)%Z with false by (symmetry; apply Z.ltb_ge; lia).
Qed.

(** C3: for an mp3 request the command selects [libmp3lame] with the
    bitrate fixed by the quality alone: high 320k, medium 192k, low 128k. *)
Theorem mp3_bitrate_by_quality input od (w : W) out_dir :
  result_of (resolve_out_dir input od w) = Ret out_dir ->
  let out := Pathlib.str (output_file_in out_dir input "mp3") in
  let lame b :=
    ["ffmpeg"; "-i"; Pathlib.str input;
     "-codec:a"; "libmp3lame"; "-b:a"; b; "-y"; out] in
  spawned (events_of (convert_audio input "mp3" od "high" w)) = [lame "320k"] /\
  spawned (events_of (convert_audio input "mp3" od "medium" w)) = [lame "192k"] /\
  spawned (events_of (convert_audio input "mp3" od "low" w)) = [lame "128k"].
Proof.
  intros R out lame.
  repeat split; now rewrite (convert_audio_spawned _ _ _ _ _ _ R).
Qed.

(** C4 (as amended): [check_ffmpeg] accepts the tool exactly when the
    version probe starts and exits with code 0; a probe that exits with
    another code, or an executable that is not found, gives [False]. *)
Theorem check_ffmpeg_by_exit_code (w : W) :
  result_of (check_ffmpeg w) =
  match fst (os_spawn ["ffmpeg"; "-version"] w) with
  | Exited rc => Ret (rc =? 0)%Z
  | SpawnFailed FileNotFoundError => Ret false
  | SpawnFailed e => Raise (OSError e)
  end.
Proof.
  unfold check_ffmpeg, try_except, bind, subprocess_run, ret, raise, result_of.
  destruct (os_spawn _ w) as [[rc|e] w1]; simpl.
  - now destruct rc.
  - now destruct e.
Qed.

(** C6: two wav requests that differ only in quality run alike, and the
    command asks for [pcm_s16le]. *)
Theorem wav_ignores_quality input od q1 q2 (w : W) :
  convert_audio input "wav" od q1 w = convert_audio input "wav" od q2 w /\
  (forall out_dir,
     result_of (resolve_out_dir input od w) = Ret out_dir ->
     spawned (events_of (convert_audio input "wav" od q1 w)) =
     [["ffmpeg"; "-i"; Pathlib.str input; "-codec:a"; "pcm_s16le"; "-y";
       Pathlib.str (output_file_in out_dir input "wav")]]).
Proof.
  split.
  - now rewrite !convert_audio_run.
  - intros out_dir R. now rewrite (convert_audio_spawned _ _ _ _ _ _ R).
Qed.

(** C9: an mp3 request whose quality is neither ['high'] nor ['medium'],
    whatever the string, runs as quality ['low'] does: 128k. *)
Theorem mp3_other_quality_is_low input od q (w : W) :
  q <> "high" -> q <> "medium" ->
  convert_audio input "mp3" od q w = convert_audio input "mp3" od "low" w /\
  (forall out_dir,
     result_of (resolve_out_dir input od w) = Ret out_dir ->
     spawned (events_of (convert_audio input "mp3" od q w)) =
     [["ffmpeg"; "-i"; Pathlib.str input;
       "-codec:a"; "libmp3lame"; "-b:a"; "128k"; "-y";
       Pathlib.str (output_file_in out_dir input "mp3")]]).
Proof.
  intros Hh Hm.
  assert (C : codec_args "mp3" q = ["-codec:a"; "libmp3lame"; "-b:a"; "128k"]).
  { unfold codec_args. simpl.
    apply String.eqb_neq in Hh, Hm. now rewrite Hh, Hm. }
  split.
  - rewrite !convert_audio_run. unfold ffmpeg_cmd. now rewrite C.
  - intros out_dir R. rewrite (convert_audio_spawned _ _ _ _ _ _ R).
    unfold ffmpeg_cmd. now rewrite C.
Qed.

(** C10: with an output format other than ['mp3'] and ['wav'] the command
    has no encoder arguments: it is [ffmpeg -i <input> -y <output>], and
    the format string goes unchecked into the output name: for a format
    without a slash the output file is named [<stem>.<format>]. *)
Theorem other_format_no_codec input fmt od q (w : W) out_dir :
  fmt <> "mp3" -> fmt <> "wav" ->
  result_of (resolve_out_dir input od w) = Ret out_dir ->
  spawned (events_of (convert_audio input fmt od q w)) =
  [["ffmpeg"; "-i"; Pathlib.str input; "-y";
    Pathlib.str (out_dir // (Pathlib.stem input ++ "." ++ fmt))]] /\
  (PyStr.contains "/" fmt = false ->
   PyStr.contains "/" (Pathlib.stem input) = false ->
   Pathlib.stem input <> EmptyString \/ fmt <> EmptyString ->
   Pathlib.name (output_file_in out_dir input fmt) =
   (Pathlib.stem input ++ "." ++ fmt)%string).
Proof.
  intros Hm Hw R. split.
  - rewrite (convert_audio_spawned _ _ _ _ _ _ R).
    unfold ffmpeg_cmd, codec_args, output_file_in.
    apply String.eqb_neq in Hm, Hw. now rewrite Hm, Hw.
  - intros Hf Hs Hne. unfold output_file_in.
    rewrite div_component; [apply name_child| |now apply keep_app_dot].
    rewrite !contains_app, Hs, Hf. reflexivity.
Qed.

(** C8: the output directory is [output_dir] when it is given, and the run
    then asks for it to be created with its missing ancestors; otherwise it
    is the parent of the input file, and nothing is created.  Once the
    directory is there, exactly one command is handed to the operating
    system, and it ends with [-y] and the output file: the stem of the
    input with the format as extension, in that directory; on exit code 0
    that output file is the result.  For an input named [base.ext] the
    output file is [base.<format>]. *)
Theorem output_path_resolution input fmt od q (w : W) :
  let out_dir :=
    match od with
    | Some d => if PyStr.truthy d then Pathlib.Path d else Pathlib.parent input
    | None => Pathlib.parent input
    end in
  let output_file := out_dir // (Pathlib.stem input ++ "." ++ fmt) in
  let cmd :=
    ("ffmpeg" :: "-i" :: Pathlib.str input :: codec_args fmt q)
      ++ ["-y"; Pathlib.str output_file] in
  let created :=
    match od with
    | Some d =>
        if PyStr.truthy d then fst (os_mkdir (Pathlib.Path d) w) = None else True
    | None => True
    end in
  let w1 :=
    match od with
    | Some d => if PyStr.truthy d then snd (os_mkdir (Pathlib.Path d) w) else w
    | None => w
    end in
  let run := convert_audio input fmt od q w in
  mkdirs (events_of run) =
    match od with
    | Some d => if PyStr.truthy d then [Pathlib.Path d] else []
    | None => []
    end /\
  (created ->
   spawned (events_of run) = [cmd] /\
   (fst (os_spawn cmd w1) = Exited 0 ->
    result_of run = Ret (true, VPath output_file))) /\
  (forall c, In c (spawned (events_of run)) -> c = cmd) /\
  (forall v, result_of run = Ret (true, v) -> v = VPath output_file) /\
  (forall base ext,
     Pathlib.name input = (base ++ "." ++ ext)%string ->
     base <> EmptyString -> ext <> EmptyString ->
     PyStr.contains "." ext = false ->
     PyStr.contains "/" base = false -> PyStr.contains "/" fmt = false ->
     output_file = Pathlib.child out_dir (base ++ "." ++ fmt)).
Proof.
  intros out_dir output_file cmd created w1 run.
  change out_dir with (out_dir_of input od) in *.
  split; [|split; [|split; [|split]]].
  - subst run. rewrite convert_audio_run.
    pose proof (resolve_out_dir_mkdirs input od w) as M0.
    destruct (resolve_out_dir input od w) as [[[d|e] w0] t1];
      unfold events_of in *; simpl in *; [|exact M0].
    destruct (os_spawn _ w0) as [[rc|e] w2]; simpl;
      now rewrite mkdirs_app, M0, app_nil_r.
  - intros Hc.
    assert (R : resolve_out_dir input od w
                = (Ret (out_dir_of input od), w1,
                   match od with
                   | Some d => if PyStr.truthy d then [Mkdir (Pathlib.Path d)] else []
                   | None => []
                   end)).
    { rewrite resolve_out_dir_run. subst created w1. unfold out_dir_of.
      destruct od as [d|]; [destruct (PyStr.truthy d)|]; try reflexivity.
      destruct (os_mkdir (Pathlib.Path d) w) as [[e|] w0]; simpl in Hc;
        [discriminate|reflexivity]. }
    split.
    + subst run. rewrite (convert_audio_spawned input fmt od q w (out_dir_of input od));
        [reflexivity|]. unfold result_of. now rewrite R.
    + intros He. subst run. rewrite convert_audio_run, R. cbv zeta.
      change (ffmpeg_cmd input (output_file_in (out_dir_of input od) input fmt) fmt q)
        with cmd.
      destruct (os_spawn cmd w1) as [[rc|e] w2]; simpl in He; [|discriminate].
      injection He as ->. reflexivity.
  - intros c Hin. apply convert_audio_spawned_in in Hin. now subst c.
  - intros v Hv. subst run. rewrite convert_audio_run in Hv.
    destruct (resolve_out_dir input od w) as [[[d|e] w0] t1] eqn:R;
      unfold result_of in Hv; simpl in Hv; [|discriminate].
    assert (d = out_dir_of input od) as ->.
    { apply (resolve_out_dir_value input od w). unfold result_of. now rewrite R. }
    destruct (os_spawn _ w0) as [[rc|e] w2]; simpl in Hv; [|discriminate].
    destruct (rc =? 0)%Z; now inversion Hv.
  - intros base ext Hn Hb He Hd Hsb Hsf. subst output_file.
    rewrite (stem_strips_extension _ _ _ Hn Hb He Hd).
    apply div_component; [|apply keep_app_dot; now left].
    rewrite !contains_app, Hsb, Hsf. reflexivity.
Qed.

End EngineClaims.

(** ** Discovery *)

Lemma descend_one (p : PurePath) (nm : string) :
  descend p [nm] = Pathlib.child p nm.
Proof. reflexivity. Qed.

Lemma descend_child (p : PurePath) (nm : string) (rel : list string) :
  descend (Pathlib.child p nm) rel = descend p (nm :: rel).
Proof.
  unfold descend, Pathlib.child. simpl. now rewrite <- app_assoc.
Qed.

Lemma in_select_m4a (p : PurePath) (es : list entry) (q : PurePath) :
  In q (select_m4a p es) <->
  exists e, In e es /\ is_m4a (entry_name e) = true
            /\ q = Pathlib.child p (entry_name e).
Proof.
  unfold select_m4a. rewrite in_map_iff. split.
  - intros (e & <- & He). apply filter_In in He as [He Hm]. now exists e.
  - intros (e & He & Hm & ->). exists e. split; [reflexivity|].
    apply filter_In. now split.
Qed.

Lemma rglob_below_dir (p : PurePath) (nm : string) (sub : list entry) :
  rglob_below p (DirEntry nm sub) = rglob_m4a (Pathlib.child p nm) sub.
Proof. reflexivity. Qed.

Lemma at_path_weaken (e0 : entry) (es : list entry) (rel : list string) (e : entry) :
  at_path [e0] rel e -> In e0 es -> at_path es rel e.
Proof.
  intros Hat He0. inversion Hat as [? ? H|? nm sub rel' ? H Hsub]; subst.
  - destruct H as [E|[]]. subst. now apply at_child.
  - destruct H as [E|[]]. subst. now apply (at_deeper es nm sub).
Qed.

(** Whatever the recursive scan finds inside an entry lies on a path
    through that entry. *)
Lemma rglob_below_sound (e : entry) :
  forall p q, In q (rglob_below p e) ->
  exists rel e', at_path [e] rel e' /\ is_m4a (entry_name e') = true
                 /\ q = descend p rel.
Proof.
  induction e as [nm|nm sub IH] using entry_induction; intros p q Hq.
  - destruct Hq.
  - simpl in Hq. apply in_app_or in Hq as [Hq|Hq].
    + apply in_select_m4a in Hq as (e' & He' & Hm & ->).
      exists [nm; entry_name e'], e'. repeat split; auto.
      * eapply at_deeper; [now left|]. now apply at_child.
      * now rewrite <- descend_child.
    + apply in_flat_map in Hq as (e0 & He0 & Hq).
      rewrite Forall_forall in IH.
      destruct (IH e0 He0 _ _ Hq) as (rel & e' & Hat & Hm & ->).
      exists (nm :: rel), e'. repeat split; auto.
      * eapply at_deeper; [now left|]. now apply (at_path_weaken e0).
      * apply descend_child.
Qed.

Lemma rglob_m4a_sound (p : PurePath) (es : list entry) (q : PurePath) :
  In q (rglob_m4a p es) ->
  exists rel e, at_path es rel e /\ is_m4a (entry_name e) = true
                /\ q = descend p rel.
Proof.
  unfold rglob_m4a. intros Hq. apply in_app_or in Hq as [Hq|Hq].
  - apply in_select_m4a in Hq as (e & He & Hm & ->).
    exists [entry_name e], e. repeat split; auto. now apply at_child.
  - apply in_flat_map in Hq as (e0 & He0 & Hq).
    destruct (rglob_below_sound e0 _ _ Hq) as (rel & e & Hat & Hm & ->).
    exists rel, e. repeat split; auto. now apply (at_path_weaken e0).
Qed.

Lemma rglob_m4a_complete (es : list entry) (rel : list string) (e : entry) :
  at_path es rel e -> is_m4a (entry_name e) = true ->
  forall p, In (descend p rel) (rglob_m4a p es).
Proof.
  intros Hat Hm. induction Hat as [es e He|es nm sub rel e Hd Hat IH];
    intros p; unfold rglob_m4a; apply in_or_app.
  - left. apply in_select_m4a. now exists e.
  - right. apply in_flat_map. exists (DirEntry nm sub). split; [exact Hd|].
    rewrite rglob_below_dir, <- descend_child. now apply IH.
Qed.

Lemma at_path_depth_one (es : list entry) (rel : list string) (e : entry) :
  at_path es rel e -> List.length rel = 1 -> In e es /\ rel = [entry_name e].
Proof.
  intros Hat Hl. destruct Hat as [es e He|es nm sub rel e Hd Hat].
  - now split.
  - destruct Hat; simpl in Hl; discriminate.
Qed.

Section Discovery.

Context {W : Type} {platform : Platform W}.

(** C7: discovery lists exactly the entries whose name ends in [.m4a]:
    without [recursive] those at depth 1 below the root, with it those at
    every depth; on the tree with [a.m4a] and [b.m4a] at depth 1 and
    [sub/c.m4a] at depth 2 the first gives [a] and [b], the second all
    three. *)
Theorem discovery_by_depth (p : PurePath) (es : list entry) (w : W) :
  os_stat p w = IsDir es ->
  result_of (discover false p w) = Ret (glob_m4a p es) /\
  result_of (discover true p w) = Ret (rglob_m4a p es) /\
  (forall q,
     In q (glob_m4a p es) <->
     exists rel e, at_path es rel e /\ List.length rel = 1
                   /\ is_m4a (entry_name e) = true /\ q = descend p rel) /\
  (forall q,
     In q (rglob_m4a p es) <->
     exists rel e, at_path es rel e
                   /\ is_m4a (entry_name e) = true /\ q = descend p rel) /\
  glob_m4a (Pathlib.Path "music") music_entries =
    [Pathlib.Path "music/a.m4a"; Pathlib.Path "music/b.m4a"] /\
  rglob_m4a (Pathlib.Path "music") music_entries =
    [Pathlib.Path "music/a.m4a"; Pathlib.Path "music/b.m4a";
     Pathlib.Path "music/sub/c.m4a"].
Proof.
  intros St. unfold discover, result_of. simpl. rewrite St. simpl.
  repeat split; try reflexivity.
  - intros Hq. apply in_select_m4a in Hq as (e & He & Hm & ->).
    exists [entry_name e], e. repeat split; auto. now apply at_child.
  - intros (rel & e & Hat & Hl & Hm & ->).
    destruct (at_path_depth_one _ _ _ Hat Hl) as [He ->].
    apply in_select_m4a. now exists e.
  - apply rglob_m4a_sound.
  - intros (rel & e & Hat & Hm & ->). now apply (rglob_m4a_complete es rel e).
Qed.

End Discovery.

(** ** The batch *)

Lemma quiet_loop_event (t : list event) : Forall quiet t -> Forall loop_event t.
Proof.
  apply Forall_impl. now intros [c|p|l].
Qed.

Lemma quiet_announced (t : list event) : Forall quiet t -> announced t = [].
Proof.
  induction 1 as [|[c|p|l] t Hq _ IH]; simpl; auto. destruct Hq.
Qed.

Section Batch.

Context {W : Type} {platform : Platform W}.

Lemma resolve_out_dir_quiet input od (w : W) :
  Forall quiet (events_of (resolve_out_dir input od w)).
Proof.
  rewrite resolve_out_dir_run.
  destruct od as [d|]; [destruct (PyStr.truthy d)|]; try constructor.
  destruct (os_mkdir _ w) as [[e|] w']; repeat constructor.
Qed.

Lemma convert_audio_quiet input fmt od q (w : W) :
  Forall quiet (events_of (convert_audio input fmt od q w)).
Proof.
  rewrite convert_audio_run.
  pose proof (resolve_out_dir_quiet input od w) as Q0.
  destruct (resolve_out_dir input od w) as [[[d|e] w1] t1];
    unfold events_of in *; simpl in *; [|exact Q0].
  destruct (os_spawn _ w1) as [[rc|e] w2]; simpl;
    apply Forall_app; split; auto; repeat constructor.
Qed.


(** A line with text that can be written, written before the rest. *)
Lemma bind_print_text {B} (l : line) (text : string) (k : unit -> M W B) (w : W) :
  line_text l = Some text ->
  bind (print l) k w =
  if py_encodable text then
    match k tt w with
    | (r, w2, t2) => (r, w2, Print l :: t2)
    end
  else (Raise (UnicodeEncodeError text), w, []).
Proof.
  intros H. unfold bind, print. rewrite H.
  destruct (py_encodable text); [|reflexivity].
  now destruct (k tt w) as [[r w2] t2].
Qed.

(** A line without text is always written. *)
Lemma bind_print_plain {B} (l : line) (k : unit -> M W B) (w : W) :
  line_text l = None ->
  bind (print l) k w =
  match k tt w with
  | (r, w2, t2) => (r, w2, Print l :: t2)
  end.
Proof.
  intros H. unfold bind, print. rewrite H.
  now destruct (k tt w) as [[r w2] t2].
Qed.


(** One turn of the loop, step by step. *)
Lemma process_file_run idx total f fmt od q sc fc (w : W) :
  process_file idx total f fmt od q sc fc w =
  if py_encodable (Pathlib.name f) then
    match convert_audio f fmt od q w with
    | (Ret (success, result), w1, t) =>
        if py_encodable (py_str result) then
          (Ret (if success then (sc + 1, fc) else (sc, fc + 1)), w1,
           Print (L_converting idx total (Pathlib.name f))
             :: t ++ [Print (result_line success result)])
        else
          (Raise (UnicodeEncodeError (py_str result)), w1,
           Print (L_converting idx total (Pathlib.name f)) :: t)
    | (Raise e, w1, t) =>
        (Raise e, w1, Print (L_converting idx total (Pathlib.name f)) :: t)
    end
  else (Raise (UnicodeEncodeError (Pathlib.name f)), w, []).
Proof.
  unfold process_file.
  rewrite (bind_print_text _ (Pathlib.name f)) by reflexivity.
  destruct (py_encodable (Pathlib.name f)); [|reflexivity].
  unfold bind at 1.
  destruct (convert_audio f fmt od q w) as [[[[success result]|e] w1] t];
    [|reflexivity].
  destruct success; unfold result_line;
    rewrite (bind_print_text _ (py_str result)) by reflexivity;
    destruct (py_encodable (py_str result)); unfold ret;
    now rewrite ?app_nil_r.
Qed.

(** One turn of the loop and the rest, step by step. *)
Lemma batch_loop_step f rest idx total fmt od q sc fc (w : W) :
  batch_loop (f :: rest) idx total fmt od q sc fc w =
  if py_encodable (Pathlib.name f) then
    match convert_audio f fmt od q w with
    | (Ret (success, result), w1, t) =>
        if py_encodable (py_str result) then
          match
            batch_loop rest (idx + 1) total fmt od q
              (fst (if success then (sc + 1, fc) else (sc, fc + 1)))
              (snd (if success then (sc + 1, fc) else (sc, fc + 1))) w1
          with
          | (r, w2, t2) =>
              (r, w2,
               (Print (L_converting idx total (Pathlib.name f))
                  :: t ++ [Print (result_line success result)]) ++ t2)
          end
        else
          (Raise (UnicodeEncodeError (py_str result)), w1,
           Print (L_converting idx total (Pathlib.name f)) :: t)
    | (Raise e, w1, t) =>
        (Raise e, w1, Print (L_converting idx total (Pathlib.name f)) :: t)
    end
  else (Raise (UnicodeEncodeError (Pathlib.name f)), w, []).
Proof.
  simpl. unfold bind. rewrite process_file_run.
  destruct (py_encodable (Pathlib.name f)); [|reflexivity].
  destruct (convert_audio f fmt od q w) as [[[[success result]|e] w1] t];
    [|reflexivity].
  now destruct (py_encodable (py_str result)).
Qed.

Lemma process_file_events idx total f fmt od q sc fc (w : W) :
  Forall loop_event (events_of (process_file idx total f fmt od q sc fc w)).
Proof.
  rewrite process_file_run.
  pose proof (quiet_loop_event _ (convert_audio_quiet f fmt od q w)) as Q.
  destruct (py_encodable (Pathlib.name f)); [|constructor].
  destruct (convert_audio f fmt od q w) as [[[[success result]|e] w1] t];
    unfold events_of in *; simpl in Q.
  - destruct (py_encodable (py_str result)); simpl.
    + constructor; [exact I|]. apply Forall_app. split; [exact Q|].
      constructor; [now destruct success|constructor].
    + constructor; [exact I|exact Q].
  - constructor; [exact I|exact Q].
Qed.

Lemma batch_loop_events files : forall idx total fmt od q sc fc (w : W),
  Forall loop_event (events_of (batch_loop files idx total fmt od q sc fc w)).
Proof.
  induction files as [|f rest IH]; intros; [constructor|].
  simpl. unfold bind.
  pose proof (process_file_events idx total f fmt od q sc fc w) as P.
  destruct (process_file idx total f fmt od q sc fc w) as [[[c|e] w1] t];
    unfold events_of in *; simpl in *; [|exact P].
  specialize (IH (idx + 1) total fmt od q (fst c) (snd c) w1).
  destruct (batch_loop rest _ _ _ _ _ _ _ w1) as [[r w2] t2]. simpl in *.
  apply Forall_app. now split.
Qed.

(** Each turn adds one to exactly one counter. *)
Lemma process_file_counts idx total f fmt od q sc fc (w w' : W) c t :
  process_file idx total f fmt od q sc fc w = (Ret c, w', t) ->
  c = (sc + 1, fc) \/ c = (sc, fc + 1).
Proof.
  rewrite process_file_run.
  destruct (py_encodable (Pathlib.name f)); [|discriminate].
  destruct (convert_audio f fmt od q w) as [[[[success result]|e] w1] t1];
    [|discriminate].
  destruct (py_encodable (py_str result)); [|discriminate].
  intros H. injection H as <- _ _. destruct success; auto.
Qed.

Lemma batch_loop_counts files : forall idx total fmt od q sc fc (w w' : W) c t,
  batch_loop files idx total fmt od q sc fc w = (Ret c, w', t) ->
  fst c + snd c = sc + fc + List.length files.
Proof.
  induction files as [|f rest IH]; intros idx total fmt od q sc fc w w' c t H.
  - injection H as <- _ _. simpl. lia.
  - simpl in H. unfold bind in H.
    destruct (process_file idx total f fmt od q sc fc w) as [[[c1|e] w1] t1] eqn:P;
      [|discriminate].
    destruct (batch_loop rest _ _ _ _ _ _ _ w1) as [[r w2] t2] eqn:L.
    injection H as -> _ _.
    apply IH in L. apply process_file_counts in P.
    destruct P as [->| ->]; simpl in *; lia.
Qed.

Lemma run_eta {A} (x : outcome A * W * list event) :
  match x with
  | (r, w2, t2) => (r, w2, [] ++ t2)
  end = x.
Proof. now destruct x as [[r w2] t2]. Qed.

(** One run of [batch_convert], step by step. *)
Lemma batch_convert_run input_dir fmt od q recursive (w : W) :
  batch_convert input_dir fmt od q recursive w =
  let p := Pathlib.Path input_dir in
  match os_stat p w with
  | StatFails e => (Raise (OSError e), w, [])
  | NoEntry => print (L_no_dir input_dir) w
  | st =>
      match scan recursive p st with
      | [] => print (L_no_files input_dir) w
      | f :: rest =>
          let n := List.length (f :: rest) in
          if negb (py_encodable fmt) then
            (Raise (UnicodeEncodeError fmt), w, [Print (L_found n)])
          else if negb (py_encodable q) then
            (Raise (UnicodeEncodeError q), w,
             [Print (L_found n); Print (L_format fmt)])
          else
            match batch_loop (f :: rest) 1 n fmt od q 0 0 w with
            | (Ret c, w', t) => (Ret tt, w', header n fmt q ++ t ++ footer c)
            | (Raise e, w', t) => (Raise e, w', header n fmt q ++ t)
            end
      end
  end.
Proof.
  unfold batch_convert. cbv zeta.
  set (p := Pathlib.Path input_dir).
  unfold bind at 1, path_exists.
  assert (Files : forall st, st = os_stat p w ->
    (match st with StatFails _ => False | NoEntry => False | _ => True end) ->
    (m4a_files <- discover recursive p ;;
     match m4a_files with
     | [] => print (L_no_files input_dir)
     | _ :: _ =>
         print (L_found (List.length m4a_files)) ;;;
         print (L_format fmt) ;;;
         print (L_quality q) ;;;
         print L_rule ;;;
         c <- batch_loop m4a_files 1 (List.length m4a_files) fmt od q 0 0 ;;
         print L_rule ;;;
         print L_done ;;;
         print (L_ok_count (fst c)) ;;;
         print (L_fail_count (snd c))
     end) w =
    match scan recursive p st with
    | [] => print (L_no_files input_dir) w
    | f :: rest =>
        if negb (py_encodable fmt) then
          (Raise (UnicodeEncodeError fmt), w,
           [Print (L_found (List.length (f :: rest)))])
        else if negb (py_encodable q) then
          (Raise (UnicodeEncodeError q), w,
           [Print (L_found (List.length (f :: rest))); Print (L_format fmt)])
        else
          match batch_loop (f :: rest) 1 (List.length (f :: rest)) fmt od q 0 0 w with
          | (Ret c, w', t) =>
              (Ret tt, w', header (List.length (f :: rest)) fmt q ++ t ++ footer c)
          | (Raise e, w', t) =>
              (Raise e, w', header (List.length (f :: rest)) fmt q ++ t)
          end
    end).
  { intros st Hst Hok. unfold bind at 1, discover. rewrite <- Hst.
    destruct st as [| |es|e]; try destruct Hok.
    all: destruct (scan recursive p _) as [|f rest];
      [now destruct (print (L_no_files input_dir) w) as [[r w2] t2]|].
    all: rewrite bind_print_plain by reflexivity;
      rewrite (bind_print_text _ fmt) by reflexivity;
      destruct (py_encodable fmt); [|reflexivity];
      rewrite (bind_print_text _ q) by reflexivity;
      destruct (py_encodable q); [|reflexivity];
      rewrite bind_print_plain by reflexivity;
      unfold bind at 1;
      destruct (batch_loop (f :: rest) 1 _ fmt od q 0 0 w) as [[[c|e] w'] t];
      [|reflexivity];
      rewrite !bind_print_plain by reflexivity;
      unfold print; simpl; unfold header, footer; rewrite ?app_nil_r; reflexivity. }
  destruct (os_stat p w) as [| |es|e] eqn:St.
  - change (negb false) with true. cbv iota. apply run_eta.
  - change (negb true) with false. cbv iota.
    rewrite (Files IsFile eq_refl I). apply run_eta.
  - change (negb true) with false. cbv iota.
    rewrite (Files (IsDir es) eq_refl I). apply run_eta.
  - reflexivity.
Qed.

End Batch.

Lemma report_counts_inv (u : list event) (n sc fc : nat) (fmt q : string)
    (c : nat * nat) :
  Forall loop_event u ->
  In (Print (L_ok_count sc)) (header n fmt q ++ u ++ footer c) ->
  In (Print (L_fail_count fc)) (header n fmt q ++ u ++ footer c) ->
  sc = fst c /\ fc = snd c.
Proof.
  intros Hu Is If. rewrite Forall_forall in Hu.
  unfold header, footer in *. simpl in Is, If.
  destruct Is as [Is|[Is|[Is|[Is|Is]]]]; try discriminate.
  destruct If as [If|[If|[If|[If|If]]]]; try discriminate.
  apply in_app_or in Is, If.
  destruct Is as [Is|Is]; [now apply Hu in Is|].
  destruct If as [If|If]; [now apply Hu in If|].
  simpl in Is, If.
  destruct Is as [Is|[Is|[Is|[Is|[]]]]]; try discriminate.
  destruct If as [If|[If|[If|[If|[]]]]]; try discriminate.
  split; congruence.
Qed.

Section BatchClaims.

Context {W : Type} {platform : Platform W}.


(** On a platform where every command starts, every directory can be
    made and the standard output takes every text, every turn runs to
    its end, whatever the exit codes. *)
Lemma turns_complete_when_tool_starts files : forall fmt od q (w : W),
  (forall cmd w0, exists rc w1, os_spawn cmd w0 = (Exited rc, w1)) ->
  (forall p w0, fst (os_mkdir p w0) = None) ->
  (forall text, py_encodable text = true) ->
  turns_complete files fmt od q w = true.
Proof.
  intros fmt od q w Hs Hm He. revert w.
  induction files as [|f rest IH]; intros w; [reflexivity|].
  simpl. rewrite He. simpl.
  assert (R : exists o w1 t, convert_audio f fmt od q w = (Ret o, w1, t)).
  { rewrite convert_audio_run, resolve_out_dir_run.
    destruct od as [d|]; [destruct (PyStr.truthy d)|].
    - specialize (Hm (Pathlib.Path d) w).
      destruct (os_mkdir (Pathlib.Path d) w) as [[e|] w0]; simpl in Hm;
        [discriminate|].
      cbv zeta.
      destruct (Hs (ffmpeg_cmd f (output_file_in (Pathlib.Path d) f fmt) fmt q) w0)
        as (rc & w1 & ->).
      destruct (rc =? 0)%Z; now repeat eexists.
    - cbv zeta.
      destruct (Hs (ffmpeg_cmd f (output_file_in (Pathlib.parent f) f fmt) fmt q) w)
        as (rc & w1 & ->).
      destruct (rc =? 0)%Z; now repeat eexists.
    - cbv zeta.
      destruct (Hs (ffmpeg_cmd f (output_file_in (Pathlib.parent f) f fmt) fmt q) w)
        as (rc & w1 & ->).
      destruct (rc =? 0)%Z; now repeat eexists. }
  destruct R as ([success result] & w1 & t & ->).
  rewrite He. simpl. apply IH.
Qed.

(** C2: each processed file adds one to exactly one of the two counters,
    and a batch that reaches the report prints counts whose sum is the
    number of files discovered. *)
Theorem counts_add_up :
  (forall idx total f fmt od q sc fc (w w' : W) c t,
     process_file idx total f fmt od q sc fc w = (Ret c, w', t) ->
     c = (sc + 1, fc) \/ c = (sc, fc + 1)) /\
  (forall input_dir fmt od q recursive (w w' : W) t files sc fc,
     batch_convert input_dir fmt od q recursive w = (Ret tt, w', t) ->
     result_of (discover recursive (Pathlib.Path input_dir) w) = Ret files ->
     In (Print (L_ok_count sc)) t -> In (Print (L_fail_count fc)) t ->
     sc + fc = List.length files).
Proof.
  split; [intros; eapply process_file_counts; eassumption|].
  intros input_dir fmt od q recursive w w' t files sc fc H D Hs Hf.
  rewrite batch_convert_run in H. cbv zeta in H.
  unfold discover, result_of in D.
  set (p := Pathlib.Path input_dir) in *.
  assert (Msg : forall (l : line) (r : outcome unit * W * list event),
            print l w = r -> r = (Ret tt, w', t) -> False).
  { intros l r <-. unfold print.
    destruct (line_text l) as [text|]; [destruct (py_encodable text)|];
      intros E; try discriminate; injection E as _ <-;
      destruct Hs as [Hs|[]]; destruct Hf as [Hf|[]]; congruence. }
  destruct (os_stat p w) as [| |es|e] eqn:St; cbn [fst] in D.
  - exfalso. eapply Msg; [reflexivity|exact H].
  - exfalso. simpl in H. eapply Msg; [reflexivity|exact H].
  - assert (files = scan recursive p (IsDir es)) as -> by congruence.
    destruct (scan recursive p (IsDir es)) as [|f rest].
    + exfalso. eapply Msg; [reflexivity|exact H].
    + destruct (negb (py_encodable fmt)); [discriminate|].
      destruct (negb (py_encodable q)); [discriminate|].
      destruct (batch_loop (f :: rest) 1 _ fmt od q 0 0 w) as [[[c|e] w2] u] eqn:L;
        [|discriminate].
      injection H as _ <-.
      pose proof (batch_loop_events (f :: rest) 1 (List.length (f :: rest))
                    fmt od q 0 0 w) as Ev.
      rewrite L in Ev. unfold events_of in Ev. simpl snd in Ev.
      destruct (report_counts_inv u _ sc fc fmt q c Ev Hs Hf) as [-> ->].
      apply batch_loop_counts in L. simpl in *. lia.
  - discriminate.
Qed.


End BatchClaims.
(** * Concrete runs on the scripted platform *)

Example path_parse_abs :
  Pathlib.Path "/music//a/./b.m4a" = mkPath "/" ["music"; "a"; "b.m4a"].
Proof. reflexivity. Qed.

Example path_parse_two_slashes :
  Pathlib.Path "//srv/x" = mkPath "//" ["srv"; "x"]
  /\ Pathlib.Path "///x" = mkPath "/" ["x"].
Proof. split; reflexivity. Qed.

Example path_parse_trailing_slash : Pathlib.str (Pathlib.Path "music/") = "music".
Proof. reflexivity. Qed.

Example path_parse_empty : Pathlib.str (Pathlib.Path "") = ".".
Proof. reflexivity. Qed.

Example path_stem_two_dots : Pathlib.stem (Pathlib.Path "/x/song.live.m4a") = "song.live".
Proof. reflexivity. Qed.

Example path_stem_leading_dot : Pathlib.stem (Pathlib.Path ".m4a") = ".m4a".
Proof. reflexivity. Qed.

Example is_m4a_examples :
  is_m4a "a.m4a" = true /\ is_m4a ".m4a" = true /\ is_m4a "m4a" = false
  /\ is_m4a "a.M4A" = false /\ is_m4a "a.m4a.txt" = false.
Proof. repeat split; reflexivity. Qed.

(** An empty output directory string counts as absent. *)
Example empty_output_dir_is_absent :
  events_of (convert_audio (Pathlib.Path "music/a.m4a") "mp3" (Some "") "high"
               (music_world [Exited 0]))
  = [Spawn ["ffmpeg"; "-i"; "music/a.m4a"; "-codec:a"; "libmp3lame"; "-b:a";
            "320k"; "-y"; "music/a.mp3"]].
Proof. reflexivity. Qed.

(** A tool that disappears in the middle of a batch ends the batch with
    the exception of the operating system. *)
Example batch_aborted_by_missing_tool :
  result_of (batch_convert "music" "mp3" None "high" false (music_world [Exited 0]))
  = Raise (OSError FileNotFoundError).
Proof. reflexivity. Qed.

(** C1, the claim as stated fails: with the executable not found,
    [convert_audio] gives no failure value but raises. *)
Lemma convert_audio_launch_failure_raises :
  fst (os_spawn ["ffmpeg"; "-i"; "music/a.m4a"; "-codec:a"; "libmp3lame";
                 "-b:a"; "320k"; "-y"; "music/a.mp3"] (music_world []))
    = SpawnFailed FileNotFoundError /\
  result_of (convert_audio (Pathlib.Path "music/a.m4a") "mp3" None "high"
               (music_world []))
    = Raise (OSError FileNotFoundError).
Proof. split; reflexivity. Qed.

Lemma convert_audio_outcome_witness :
  result_of (convert_audio (Pathlib.Path "music/a.m4a") "mp3" None "high"
               (music_world [Exited 1]))
  = Ret (false,
         VStr "Command '['ffmpeg', '-i', 'music/a.m4a', '-codec:a', 'libmp3lame', '-b:a', '320k', '-y', 'music/a.mp3']' returned non-zero exit status 1.")
  /\
  result_of (convert_audio (Pathlib.Path "music/a.m4a") "mp3" None "high"
               (music_world [Exited 0]))
  = Ret (true, VPath (Pathlib.Path "music/a.mp3")).
Proof.
  split.
  - exact (proj1 (proj2 (convert_audio_outcome (Pathlib.Path "music/a.m4a") "mp3"
                           None "high" (music_world [Exited 1]) _ _ _ eq_refl))).
  - exact (proj2 (convert_audio_outcome (Pathlib.Path "music/a.m4a") "mp3"
                    None "high" (music_world [Exited 0]) _ _ _ eq_refl)).
Defined.

Lemma mp3_bitrate_by_quality_witness :
  spawned (events_of (convert_audio (Pathlib.Path "music/a.m4a") "mp3" None
                        "medium" (music_world [Exited 0])))
  = [["ffmpeg"; "-i"; "music/a.m4a"; "-codec:a"; "libmp3lame"; "-b:a"; "192k";
      "-y"; "music/a.mp3"]].
Proof.
  exact (proj1 (proj2 (mp3_bitrate_by_quality (Pathlib.Path "music/a.m4a") None
                         (music_world [Exited 0]) (Pathlib.Path "music") eq_refl))).
Defined.

(** C4, the claim as stated fails: the probe starts and exits, with code
    1, and the tool is not accepted. *)
Lemma check_ffmpeg_rejects_nonzero_probe :
  fst (os_spawn ["ffmpeg"; "-version"] (music_world [Exited 1%Z])) = Exited 1 /\
  result_of (check_ffmpeg (music_world [Exited 1%Z])) = Ret false.
Proof. split; reflexivity. Qed.

Lemma wav_ignores_quality_witness :
  spawned (events_of (convert_audio (Pathlib.Path "music/a.m4a") "wav" None
                        "low" (music_world [Exited 0])))
  = [["ffmpeg"; "-i"; "music/a.m4a"; "-codec:a"; "pcm_s16le"; "-y";
      "music/a.wav"]].
Proof.
  exact (proj2 (wav_ignores_quality (Pathlib.Path "music/a.m4a") None "low" "high"
                  (music_world [Exited 0])) (Pathlib.Path "music") eq_refl).
Defined.

Lemma mp3_other_quality_is_low_witness :
  convert_audio (Pathlib.Path "music/a.m4a") "mp3" None "ultra" (music_world [Exited 0])
  = convert_audio (Pathlib.Path "music/a.m4a") "mp3" None "low" (music_world [Exited 0]).
Proof.
  apply (mp3_other_quality_is_low (Pathlib.Path "music/a.m4a") None "ultra"
           (music_world [Exited 0])); discriminate.
Defined.

Lemma other_format_no_codec_witness :
  spawned (events_of (convert_audio (Pathlib.Path "music/a.m4a") "flac" None
                        "high" (music_world [Exited 0])))
  = [["ffmpeg"; "-i"; "music/a.m4a"; "-y"; "music/a.flac"]]
  /\ Pathlib.name (output_file_in (Pathlib.Path "music") (Pathlib.Path "music/a.m4a") "flac")
     = "a.flac".
Proof.
  assert (Hm : "flac" <> "mp3") by discriminate.
  assert (Hw : "flac" <> "wav") by discriminate.
  destruct (other_format_no_codec (Pathlib.Path "music/a.m4a") "flac" None "high"
              (music_world [Exited 0]) (Pathlib.Path "music") Hm Hw eq_refl)
    as [Hc Hn].
  split; [exact Hc|].
  apply Hn; [reflexivity|reflexivity|left; discriminate].
Defined.

Lemma output_path_resolution_witness :
  spawned (events_of (convert_audio (Pathlib.Path "music/a.m4a") "mp3"
                        (Some "out/x") "high" (music_world [Exited 0])))
  = [["ffmpeg"; "-i"; "music/a.m4a"; "-codec:a"; "libmp3lame"; "-b:a"; "320k";
      "-y"; "out/x/a.mp3"]]
  /\ result_of (convert_audio (Pathlib.Path "music/a.m4a") "mp3"
                  (Some "out/x") "high" (music_world [Exited 0]))
     = Ret (true, VPath (Pathlib.Path "out/x/a.mp3"))
  /\ Pathlib.Path "out/x" // (Pathlib.stem (Pathlib.Path "music/a.m4a") ++ "." ++ "mp3")
     = Pathlib.child (Pathlib.Path "out/x") "a.mp3"
  /\ mkdirs (events_of (convert_audio (Pathlib.Path "music/a.m4a") "mp3"
                          (Some "out/x") "high" (music_world [Exited 0])))
     = [Pathlib.Path "out/x"].
Proof.
  destruct (output_path_resolution (platform := sim_platform)
              (Pathlib.Path "music/a.m4a") "mp3" (Some "out/x")
              "high" (music_world [Exited 0])) as (Hd & Hc & _ & _ & Hn).
  destruct (Hc eq_refl) as [Hs Hr].
  split; [exact Hs|]. split; [exact (Hr eq_refl)|]. split; [|exact Hd].
  apply (Hn "a" "m4a"); try reflexivity; discriminate.
Defined.

Lemma discovery_by_depth_witness :
  result_of (discover false (Pathlib.Path "music") (music_world []))
  = Ret [Pathlib.Path "music/a.m4a"; Pathlib.Path "music/b.m4a"]
  /\ result_of (discover true (Pathlib.Path "music") (music_world []))
     = Ret [Pathlib.Path "music/a.m4a"; Pathlib.Path "music/b.m4a";
            Pathlib.Path "music/sub/c.m4a"].
Proof.
  assert (St : os_stat (Pathlib.Path "music") (music_world []) = IsDir music_entries)
    by reflexivity.
  destruct (discovery_by_depth (Pathlib.Path "music") music_entries (music_world [])
              St) as (Hg & Hr & _).
  split; [exact Hg|exact Hr].
Defined.

Lemma counts_add_up_witness :
  2 + 1 = List.length [Pathlib.Path "music/a.m4a"; Pathlib.Path "music/b.m4a";
                       Pathlib.Path "music/sub/c.m4a"].
Proof.
  eapply (proj2 counts_add_up "music" "wav" (Some "out/x") "high" true
            (music_world [Exited 0; Exited 1; Exited 0]) _ _ _ 2 1);
    [reflexivity|reflexivity|simpl; auto 30|simpl; auto 30].
Defined.



(** A file whose name the standard output cannot encode ends the batch
    before that file is converted. *)
Example batch_aborted_by_unprintable_name :
  batch_convert "in" "mp3" None "high" false
    (mkSim [Exited 0] None "in" [FileEntry (String (ascii_of_nat 255) ".m4a")])
  = (Raise (UnicodeEncodeError (String (ascii_of_nat 255) ".m4a")),
     mkSim [Exited 0] None "in" [FileEntry (String (ascii_of_nat 255) ".m4a")],
     [Print (L_found 1); Print (L_format "mp3"); Print (L_quality "high");
      Print L_rule]).
Proof. reflexivity. Qed.

(** An input directory whose name is too long ends the batch at the
    [exists()] test, with the error of the operating system and nothing
    written. *)
Example batch_aborted_by_stat_error :
  batch_convert long_name "mp3" None "high" false (music_world [Exited 0])
  = (Raise (OSError OtherOSError), music_world [Exited 0], []).
Proof. reflexivity. Qed.
(** * Further properties of the program *)

Lemma last_last_two {A : Type} (l : list A) (x y d : A) :
  last (l ++ [x; y]) d = y.
Proof.
  change [x; y] with ([x] ++ [y]). rewrite app_assoc. apply last_last.
Qed.

(** ** One conversion *)

Section EngineMore.

Context {W : Type} {platform : Platform W}.

(** X1: When the output directory cannot be made, [convert_audio] raises the
    error of the operating system and never reaches the tool: the only
    event is the request for the directory. *)
Theorem convert_audio_mkdir_failure input fmt d q (w : W) e :
  PyStr.truthy d = true ->
  fst (os_mkdir (Pathlib.Path d) w) = Some e ->
  result_of (convert_audio input fmt (Some d) q w) = Raise (OSError e) /\
  events_of (convert_audio input fmt (Some d) q w) = [Mkdir (Pathlib.Path d)].
Proof.
  intros Ht Hm. rewrite convert_audio_run, resolve_out_dir_run, Ht.
  destruct (os_mkdir (Pathlib.Path d) w) as [[e'|] w1]; simpl in Hm;
    [|discriminate].
  injection Hm as ->. now split.
Qed.

(** X2: Whatever the world does, one call of [convert_audio] asks for at most
    one directory and hands at most one command to the operating system,
    the directory first; it prints nothing, and it never tries a command
    a second time. *)
Theorem convert_audio_single_attempt input fmt od q (w : W) :
  let t := events_of (convert_audio input fmt od q w) in
  t = map Mkdir (mkdirs t) ++ map Spawn (spawned t) /\
  List.length (mkdirs t) <= 1 /\
  List.length (spawned t) <= 1 /\
  printed t = [].
Proof.
  cbv zeta. rewrite convert_audio_run, resolve_out_dir_run.
  destruct od as [d|]; [destruct (PyStr.truthy d)|].
  - destruct (os_mkdir (Pathlib.Path d) w) as [[e|] w1].
    + unfold events_of. simpl. repeat split; auto.
    + cbv zeta. destruct (os_spawn _ w1) as [[rc|e] w2];
        unfold events_of; simpl; repeat split; auto.
  - cbv zeta. destruct (os_spawn _ w) as [[rc|e] w2];
      unfold events_of; simpl; repeat split; auto.
  - cbv zeta. destruct (os_spawn _ w) as [[rc|e] w2];
      unfold events_of; simpl; repeat split; auto.
Qed.

(** X3: With an output directory given, the output file depends on the name
    of the input alone: two inputs with the same name in different
    directories are written to the same output file. *)
Theorem same_name_same_output f g fmt d q :
  PyStr.truthy d = true ->
  Pathlib.name f = Pathlib.name g ->
  output_file_in (out_dir_of f (Some d)) f fmt
  = output_file_in (out_dir_of g (Some d)) g fmt /\
  last (conversion_cmd fmt (Some d) q f) EmptyString
  = last (conversion_cmd fmt (Some d) q g) EmptyString.
Proof.
  intros Ht Hn.
  assert (E : output_file_in (out_dir_of f (Some d)) f fmt
              = output_file_in (out_dir_of g (Some d)) g fmt).
  { unfold output_file_in, out_dir_of, Pathlib.stem. now rewrite Ht, Hn. }
  split; [exact E|].
  unfold conversion_cmd, ffmpeg_cmd. rewrite E.
  now rewrite !last_last_two.
Qed.

End EngineMore.

Lemma convert_audio_mkdir_failure_witness :
  events_of (convert_audio (Pathlib.Path "music/a.m4a") "mp3" (Some "/root/out")
               "high" (mkSim [Exited 0] (Some PermissionError) "music" music_entries))
  = [Mkdir (Pathlib.Path "/root/out")].
Proof.
  apply (convert_audio_mkdir_failure (platform := sim_platform)
           (Pathlib.Path "music/a.m4a") "mp3" "/root/out" "high"
           (mkSim [Exited 0] (Some PermissionError) "music" music_entries)
           PermissionError); reflexivity.
Defined.

Lemma same_name_same_output_witness :
  Pathlib.str (output_file_in (out_dir_of (Pathlib.Path "album/a.m4a") (Some "out"))
                 (Pathlib.Path "album/a.m4a") "mp3") = "out/a.mp3"
  /\ output_file_in (out_dir_of (Pathlib.Path "album/a.m4a") (Some "out"))
       (Pathlib.Path "album/a.m4a") "mp3"
     = output_file_in (out_dir_of (Pathlib.Path "album/live/a.m4a") (Some "out"))
         (Pathlib.Path "album/live/a.m4a") "mp3".
Proof.
  split; [reflexivity|].
  apply (same_name_same_output (Pathlib.Path "album/a.m4a")
           (Pathlib.Path "album/live/a.m4a") "mp3" "out" "high"); reflexivity.
Defined.

(** ** Discovery and naming *)

Lemma substring_all (s : string) : substring 0 (String.length s) s = s.
Proof.
  induction s as [|a s IH]; simpl; [reflexivity|now rewrite IH].
Qed.

Lemma substring_cut (s : string) : forall m,
  m <= String.length s ->
  s = (substring 0 m s ++ substring m (String.length s - m) s)%string.
Proof.
  induction s as [|a s IH]; intros m Hm.
  - simpl in Hm. now replace m with 0 by lia.
  - destruct m as [|m].
    + simpl. now rewrite substring_all.
    + simpl in *. f_equal. apply IH. lia.
Qed.

Lemma substring_skip (pre suf : string) :
  substring (String.length pre) (String.length suf) (pre ++ suf) = suf.
Proof.
  induction pre as [|a pre IH]; simpl; [apply substring_all|exact IH].
Qed.

(** [endswith] holds exactly of the strings that are something followed
    by the suffix. *)
Lemma endswith_iff (s suffix : string) :
  PyStr.endswith s suffix = true <-> exists pre, s = (pre ++ suffix)%string.
Proof.
  unfold PyStr.endswith. split.
  - intros H. apply andb_true_iff in H as [Hk He].
    apply Nat.leb_le in Hk. apply String.eqb_eq in He.
    exists (substring 0 (String.length s - String.length suffix) s).
    pose proof (substring_cut s (String.length s - String.length suffix)) as C.
    replace (String.length s - (String.length s - String.length suffix))
      with (String.length suffix) in C by lia.
    rewrite He in C. apply C. lia.
  - intros [pre ->]. rewrite length_app.
    apply andb_true_iff. split; [apply Nat.leb_le; lia|].
    replace (String.length pre + String.length suffix - String.length suffix)
      with (String.length pre) by lia.
    rewrite substring_skip. apply String.eqb_refl.
Qed.

Lemma at_path_nonempty (es : list entry) (rel : list string) (e : entry) :
  at_path es rel e -> rel <> [].
Proof. intros H. destruct H; discriminate. Qed.

Lemma at_path_last (es : list entry) (rel : list string) (e : entry) :
  at_path es rel e -> last rel EmptyString = entry_name e.
Proof.
  induction 1 as [es e He|es nm sub rel e Hd Hat IH]; [reflexivity|].
  pose proof (at_path_nonempty _ _ _ Hat) as Hne.
  destruct rel as [|x rel]; [now elim Hne|exact IH].
Qed.

Lemma last_app_nonempty {A : Type} (l r : list A) (d : A) :
  r <> [] -> last (l ++ r) d = last r d.
Proof.
  intros Hr. destruct r as [|x r] using rev_ind; [now elim Hr|].
  now rewrite app_assoc, !last_last.
Qed.

Lemma name_descend (p : PurePath) (rel : list string) :
  rel <> [] -> Pathlib.name (descend p rel) = last rel EmptyString.
Proof.
  intros H. unfold Pathlib.name, descend. simpl. now apply last_app_nonempty.
Qed.

Lemma parent_descend (p : PurePath) (rel : list string) :
  rel <> [] -> Pathlib.parent (descend p rel) = descend p (removelast rel).
Proof.
  intros H. unfold Pathlib.parent, descend. simpl.
  now rewrite removelast_app.
Qed.

Lemma glob_in_rglob (p : PurePath) (es : list entry) (f : PurePath) :
  In f (glob_m4a p es) -> In f (rglob_m4a p es).
Proof. intros H. unfold rglob_m4a. apply in_or_app. now left. Qed.

Lemma in_scan (recursive : bool) (p : PurePath) (st : stat_result) (f : PurePath) :
  In f (scan recursive p st) ->
  exists es rel e, st = IsDir es /\ at_path es rel e
                   /\ is_m4a (entry_name e) = true /\ f = descend p rel.
Proof.
  destruct st as [| |es|err]; simpl; try contradiction.
  intros H. assert (H' : In f (rglob_m4a p es))
    by (destruct recursive; [exact H|now apply glob_in_rglob]).
  destruct (rglob_m4a_sound _ _ _ H') as (rel & e & Hat & Hm & ->).
  now exists es, rel, e.
Qed.

(** X4: Every discovered file is named [<base>.m4a].  Where the base is not
    empty the output name is built from that base; the file named just
    [.m4a] keeps its whole name as stem. *)
Theorem discovered_names (recursive : bool) (p : PurePath) (st : stat_result)
    (f : PurePath) :
  In f (scan recursive p st) ->
  exists base,
    Pathlib.name f = (base ++ ".m4a")%string /\
    (base <> EmptyString -> Pathlib.stem f = base) /\
    (base = EmptyString -> Pathlib.stem f = ".m4a").
Proof.
  intros H. destruct (in_scan _ _ _ _ H) as (es & rel & e & _ & Hat & Hm & ->).
  apply endswith_iff in Hm as [base Hb].
  assert (Hn : Pathlib.name (descend p rel) = (base ++ ".m4a")%string).
  { rewrite name_descend by (eapply at_path_nonempty; eauto).
    now rewrite (at_path_last _ _ _ Hat). }
  exists base. split; [exact Hn|]. split.
  - intros Hne. apply (stem_strips_extension _ base "m4a"); auto. discriminate.
  - intros ->. unfold Pathlib.stem. now rewrite Hn.
Qed.

(** X5: Without an output directory every output is written next to its
    input: into the scanned directory itself for a file found without
    [recursive], into the subdirectory that holds the file for one found
    with it. *)
Theorem outputs_next_to_inputs (p : PurePath) (es : list entry) (f : PurePath)
    (od : option string) :
  od = None \/ od = Some EmptyString ->
  (In f (glob_m4a p es) -> out_dir_of f od = p) /\
  (In f (rglob_m4a p es) ->
   exists rel, f = descend p rel /\ rel <> []
               /\ out_dir_of f od = descend p (removelast rel)).
Proof.
  intros Hod.
  assert (E : out_dir_of f od = Pathlib.parent f)
    by (destruct Hod as [-> | ->]; reflexivity).
  rewrite E. split.
  - intros H. apply in_select_m4a in H as (e & _ & _ & ->).
    apply parent_child.
  - intros H. destruct (rglob_m4a_sound _ _ _ H) as (rel & e & Hat & _ & ->).
    pose proof (at_path_nonempty _ _ _ Hat) as Hne.
    exists rel. repeat split; auto. now apply parent_descend.
Qed.

Lemma discovered_names_witness :
  exists base,
    Pathlib.name (Pathlib.Path "music/sub/c.m4a") = (base ++ ".m4a")%string /\
    (base <> EmptyString -> Pathlib.stem (Pathlib.Path "music/sub/c.m4a") = base) /\
    (base = EmptyString -> Pathlib.stem (Pathlib.Path "music/sub/c.m4a") = ".m4a").
Proof.
  apply (discovered_names true (Pathlib.Path "music") (IsDir music_entries)).
  simpl. auto.
Defined.

Lemma outputs_next_to_inputs_witness :
  out_dir_of (Pathlib.Path "music/a.m4a") None = Pathlib.Path "music".
Proof.
  apply (proj1 (outputs_next_to_inputs (Pathlib.Path "music") music_entries
                  (Pathlib.Path "music/a.m4a") None (or_introl eq_refl))).
  simpl. auto.
Defined.

(** ** The loop, whatever the world does *)

Lemma ok_lines_app (t u : list event) : ok_lines (t ++ u) = ok_lines t + ok_lines u.
Proof.
  induction t as [|[c|p|[]] t IH]; simpl; auto; now rewrite IH.
Qed.

Lemma failed_lines_app (t u : list event) :
  failed_lines (t ++ u) = failed_lines t + failed_lines u.
Proof.
  induction t as [|[c|p|[]] t IH]; simpl; auto; now rewrite IH.
Qed.

Lemma quiet_no_lines (t : list event) :
  Forall quiet t -> printed t = [] /\ ok_lines t = 0 /\ failed_lines t = 0.
Proof.
  induction 1 as [|[c|p|l] t Hq _ IH]; simpl; auto. destruct Hq.
Qed.


Section LoopMore.

Context {W : Type} {platform : Platform W}.

(** A conversion hands its command to the operating system, or raises
    before it gets there. *)
Lemma convert_audio_spawned_cases f fmt od q (w : W) :
  spawned (events_of (convert_audio f fmt od q w)) = [conversion_cmd fmt od q f]
  \/ (spawned (events_of (convert_audio f fmt od q w)) = []
      /\ exists e, result_of (convert_audio f fmt od q w) = Raise e).
Proof.
  destruct (result_of (resolve_out_dir f od w)) as [d|e] eqn:R.
  - left. rewrite (convert_audio_spawned _ _ _ _ _ _ R).
    apply resolve_out_dir_value in R. now subst d.
  - right. rewrite convert_audio_run.
    pose proof (resolve_out_dir_spawns_nothing f od w) as S0.
    destruct (resolve_out_dir f od w) as [[[d|e'] w1] t1];
      unfold result_of in R; simpl in R; [discriminate|].
    unfold events_of, result_of in *. simpl in *. split; [exact S0|].
    now exists e'.
Qed.

(** The commands of the loop are those of the files, from the first on,
    in order, up to the point where the loop ends. *)
Lemma batch_loop_spawned_prefix files : forall idx total fmt od q sc fc (w : W),
  exists k,
    spawned (events_of (batch_loop files idx total fmt od q sc fc w))
    = firstn k (map (conversion_cmd fmt od q) files).
Proof.
  induction files as [|f rest IH]; intros; [now exists 0|].
  rewrite batch_loop_step.
  destruct (py_encodable (Pathlib.name f)); [|now exists 0].
  pose proof (convert_audio_spawned_cases f fmt od q w) as Cs.
  destruct (convert_audio f fmt od q w) as [[[[success result]|e] w1] t] eqn:C;
    unfold events_of, result_of in *; simpl in Cs.
  - destruct Cs as [Cs|[_ [e He]]]; [|discriminate].
    destruct (py_encodable (py_str result)).
    + destruct (IH (idx + 1) total fmt od q
                  (fst (if success then (sc + 1, fc) else (sc, fc + 1)))
                  (snd (if success then (sc + 1, fc) else (sc, fc + 1))) w1)
        as [k Hk].
      revert Hk.
      destruct (batch_loop rest _ _ _ _ _ _ _ w1) as [[r w2] t2].
      simpl. intros Hk. exists (S k). simpl.
      rewrite !spawned_app, Cs, Hk. reflexivity.
    + exists 1. simpl. now rewrite Cs.
  - destruct Cs as [Cs|[Cs _]]; simpl; rewrite Cs; [now exists 1|now exists 0].
Qed.

(** What the loop hands to the operating system does not depend on the
    numbering or on the counters, and a longer list of files only adds
    commands at the end. *)
Lemma batch_loop_spawned_extends files more :
  forall idx idx' total total' fmt od q sc sc' fc fc' (w : W),
  exists later,
    spawned (events_of (batch_loop (files ++ more) idx total fmt od q sc fc w))
    = spawned (events_of (batch_loop files idx' total' fmt od q sc' fc' w))
        ++ later.
Proof.
  induction files as [|f rest IH]; intros.
  - simpl app. eexists. reflexivity.
  - change ((f :: rest) ++ more) with (f :: (rest ++ more)).
    rewrite (batch_loop_step f (rest ++ more)), (batch_loop_step f rest).
    destruct (py_encodable (Pathlib.name f)); [|now exists []].
    destruct (convert_audio f fmt od q w) as [[[[success result]|e] w1] t].
    + destruct (py_encodable (py_str result));
        [|exists []; now rewrite app_nil_r].
      destruct (IH (idx + 1) (idx' + 1) total total' fmt od q
                  (fst (if success then (sc + 1, fc) else (sc, fc + 1)))
                  (fst (if success then (sc' + 1, fc') else (sc', fc' + 1)))
                  (snd (if success then (sc + 1, fc) else (sc, fc + 1)))
                  (snd (if success then (sc' + 1, fc') else (sc', fc' + 1)))
                  w1) as [later Hl].
      revert Hl.
      destruct (batch_loop (rest ++ more) _ _ _ _ _ _ _ w1) as [[r w2] t2].
      destruct (batch_loop rest _ _ _ _ _ _ _ w1) as [[r' w2'] t2'].
      intros Hl.
      unfold events_of in *. simpl in *. exists later.
      rewrite !spawned_app, Hl. simpl. now rewrite !app_assoc.
    + exists []. now rewrite app_nil_r.
Qed.


(** The counters move with the lines printed: one success line for every
    step of the first, one failure line for every step of the second. *)
Lemma batch_loop_lines files : forall idx total fmt od q sc fc (w w' : W) c t,
  batch_loop files idx total fmt od q sc fc w = (Ret c, w', t) ->
  fst c = sc + ok_lines t /\ snd c = fc + failed_lines t
  /\ List.length (announced t) = List.length files.
Proof.
  induction files as [|f rest IH]; intros idx total fmt od q sc fc w w' c t H.
  - injection H as <- _ <-. simpl. repeat split; lia.
  - rewrite batch_loop_step in H.
    destruct (py_encodable (Pathlib.name f)); [|discriminate].
    pose proof (convert_audio_quiet f fmt od q w) as Q.
    destruct (convert_audio f fmt od q w) as [[[[success result]|e] w1] t1];
      [|discriminate].
    destruct (py_encodable (py_str result)); [|discriminate].
    unfold events_of in Q. simpl in Q.
    destruct (quiet_no_lines _ Q) as (_ & Q1 & Q2).
    pose proof (quiet_announced _ Q) as Q3.
    specialize (IH (idx + 1) total fmt od q
                  (fst (if success then (sc + 1, fc) else (sc, fc + 1)))
                  (snd (if success then (sc + 1, fc) else (sc, fc + 1))) w1).
    destruct (batch_loop rest _ _ _ _ _ _ _ w1) as [[r w2] t2].
    injection H as -> _ <-.
    destruct (IH _ _ _ eq_refl) as (I1 & I2 & I3).
    simpl. rewrite !ok_lines_app, !failed_lines_app, !announced_app.
    simpl. rewrite ?List.length_app.
    rewrite Q1, Q2, Q3, I1, I2, I3. unfold result_line.
    destruct success; simpl; repeat split; lia.
Qed.

End LoopMore.

(** ** The batch, whatever the world does *)

Section BatchMore.

Context {W : Type} {platform : Platform W}.

(** A message on its own holds no count. *)
Lemma message_without_counts (l : line) (w w' : W) t sc fc :
  print l w = (Ret tt, w', t) ->
  In (Print (L_ok_count sc)) t -> In (Print (L_fail_count fc)) t -> False.
Proof.
  unfold print.
  destruct (line_text l) as [text|]; [destruct (py_encodable text)|];
    intros E Hs Hf; try discriminate E; inversion E; subst;
    destruct Hs as [Hs|[]]; destruct Hf as [Hf|[]]; congruence.
Qed.

Lemma print_spawns_nothing (l : line) (w : W) :
  spawned (events_of (print l w)) = [] /\ mkdirs (events_of (print l w)) = [].
Proof.
  unfold print.
  destruct (line_text l) as [text|]; [destruct (py_encodable text)|];
    now split.
Qed.

(** The commands of a batch are those of its loop, when the header can be
    written; there are none when it cannot. *)
Lemma batch_convert_spawned input_dir fmt od q recursive (w : W) :
  let p := Pathlib.Path input_dir in
  let files := scan recursive p (os_stat p w) in
  spawned (events_of (batch_convert input_dir fmt od q recursive w))
  = if py_encodable fmt && py_encodable q then
      spawned (events_of (batch_loop files 1 (List.length files) fmt od q 0 0 w))
    else [].
Proof.
  cbv zeta. rewrite batch_convert_run. cbv zeta.
  set (p := Pathlib.Path input_dir).
  assert (Msg : forall l,
    spawned (events_of (print l w))
    = if py_encodable fmt && py_encodable q then [] else [])
    by (intros l; rewrite (proj1 (print_spawns_nothing l w));
        now destruct (py_encodable fmt && py_encodable q)).
  destruct (os_stat p w) as [| |es|e]; try apply Msg;
    [|now destruct (py_encodable fmt && py_encodable q)].
  destruct (scan recursive p (IsDir es)) as [|f rest]; [apply Msg|].
  destruct (py_encodable fmt); [|reflexivity].
  destruct (py_encodable q); [|reflexivity].
  simpl negb. cbv iota. simpl andb. cbv iota.
  destruct (batch_loop (f :: rest) 1 _ fmt od q 0 0 w) as [[[c|e] w'] t];
    unfold events_of, header, footer; cbn [snd spawned app]; [|reflexivity].
  rewrite spawned_app. cbn [spawned]. now rewrite app_nil_r.
Qed.

(** X6: The only commands a batch hands to the operating system are the
    conversion commands of the discovered files: from the first file on,
    in the order of discovery, none left out and none twice. *)
Theorem batch_commands_follow_discovery input_dir fmt od q recursive (w : W) :
  let p := Pathlib.Path input_dir in
  let files := scan recursive p (os_stat p w) in
  exists k,
    spawned (events_of (batch_convert input_dir fmt od q recursive w))
    = firstn k (map (conversion_cmd fmt od q) files).
Proof.
  cbv zeta. rewrite batch_convert_spawned. cbv zeta.
  destruct (py_encodable fmt && py_encodable q); [|now exists 0].
  apply batch_loop_spawned_prefix.
Qed.

(** X7: A recursive batch begins with the very commands of the non-recursive
    batch in the same world; the files below only add commands after
    them. *)
Theorem recursive_extends_flat input_dir fmt od q (w : W) :
  exists later,
    spawned (events_of (batch_convert input_dir fmt od q true w))
    = spawned (events_of (batch_convert input_dir fmt od q false w)) ++ later.
Proof.
  rewrite !batch_convert_spawned. cbv zeta.
  destruct (py_encodable fmt && py_encodable q); [|now exists []].
  set (p := Pathlib.Path input_dir).
  destruct (os_stat p w) as [| |es|e]; simpl scan; try (now exists []).
  unfold rglob_m4a, glob_m4a. apply batch_loop_spawned_extends.
Qed.


(** X9: In a batch that ends with the report, the count of successes is the
    number of success lines printed, the count of failures the number of
    failure lines, and every announced file has exactly one of the two. *)
Theorem report_matches_lines input_dir fmt od q recursive (w w' : W) t sc fc :
  batch_convert input_dir fmt od q recursive w = (Ret tt, w', t) ->
  In (Print (L_ok_count sc)) t -> In (Print (L_fail_count fc)) t ->
  sc = ok_lines t /\ fc = failed_lines t
  /\ List.length (announced t) = sc + fc.
Proof.
  intros H Hs Hf. rewrite batch_convert_run in H. cbv zeta in H.
  set (p := Pathlib.Path input_dir) in *.
  destruct (os_stat p w) as [| |es|e].
  - exfalso. eapply message_without_counts; eassumption.
  - exfalso. simpl in H. eapply message_without_counts; eassumption.
  - destruct (scan recursive p (IsDir es)) as [|f rest].
    + exfalso. eapply message_without_counts; eassumption.
    + destruct (negb (py_encodable fmt)); [discriminate|].
      destruct (negb (py_encodable q)); [discriminate|].
      destruct (batch_loop (f :: rest) 1 _ fmt od q 0 0 w) as [[[c|e] w2] u] eqn:L;
        [|discriminate].
      injection H as _ <-.
      pose proof (batch_loop_events (f :: rest) 1 (List.length (f :: rest))
                    fmt od q 0 0 w) as Ev.
      rewrite L in Ev. unfold events_of in Ev. simpl snd in Ev.
      destruct (report_counts_inv u _ sc fc fmt q c Ev Hs Hf) as [-> ->].
      destruct (batch_loop_lines _ _ _ _ _ _ _ _ _ _ _ _ L) as (L1 & L2 & L3).
      pose proof (batch_loop_counts _ _ _ _ _ _ _ _ _ _ _ _ L) as L4.
      unfold header, footer. cbn [ok_lines failed_lines announced app].
      rewrite ok_lines_app, failed_lines_app, announced_app.
      cbn [ok_lines failed_lines announced]. rewrite app_nil_r.
      simpl in *. repeat split; lia.
  - discriminate.
Qed.


End BatchMore.

(** ** The command line program *)

Lemma core_events_app (t u : list main_event) :
  core_events (t ++ u) = core_events t ++ core_events u.
Proof.
  induction t as [|[l|ev] t IH]; simpl; auto. now rewrite IH.
Qed.

Lemma core_events_map (t : list event) : core_events (map Core t) = t.
Proof.
  induction t as [|ev t IH]; simpl; [reflexivity|now rewrite IH].
Qed.

Lemma in_firstn_in {A : Type} (k : nat) : forall (l : list A) (x : A),
  In x (firstn k l) -> In x l.
Proof.
  induction k as [|k IH]; intros [|y l] x H; simpl in *; try contradiction.
  destruct H as [H|H]; [now left|right; now apply IH].
Qed.

Lemma codec_args_known (fmt q : string) :
  In fmt format_choices -> In (codec_args fmt q) encoder_settings.
Proof.
  intros [<-|[<-|[]]]; unfold codec_args, encoder_settings; simpl.
  - destruct (String.eqb q "high"); [now left|].
    destruct (String.eqb q "medium"); simpl; auto.
  - auto.
Qed.

Section MainProgram.

Context {W : Type} {platform : Platform W}.

(** One run of the preflight check, step by step. *)
Lemma check_ffmpeg_run (w : W) :
  check_ffmpeg w =
  (match fst (os_spawn probe_cmd w) with
   | Exited rc => Ret (rc =? 0)%Z
   | SpawnFailed FileNotFoundError => Ret false
   | SpawnFailed e => Raise (OSError e)
   end, snd (os_spawn probe_cmd w), [Spawn probe_cmd]).
Proof.
  unfold check_ffmpeg, try_except, bind, subprocess_run, ret, raise, probe_cmd.
  destruct (os_spawn _ w) as [[rc|e] w1]; simpl.
  - now destruct rc.
  - now destruct e.
Qed.

(** X11: Without the tool [main] ends with [sys.exit(1)] before any work: when
    the probe exits with a code other than 0, or its executable is not
    found, the only thing handed to the operating system is the probe;
    no file is converted and no directory is made. *)
Theorem main_stops_without_tool args (w : W) :
  (exists rc, fst (os_spawn probe_cmd w) = Exited rc /\ rc <> 0%Z)
  \/ fst (os_spawn probe_cmd w) = SpawnFailed FileNotFoundError ->
  let run := main args w in
  fst (fst run) = SystemExit 1 /\
  exit_status (fst (fst run)) = 1%Z /\
  snd (fst run) = snd (os_spawn probe_cmd w) /\
  core_events (snd run) = [Spawn probe_cmd].
Proof.
  intros H. cbv zeta. unfold main. rewrite check_ffmpeg_run.
  assert (E : match fst (os_spawn probe_cmd w) with
              | Exited rc => Ret (rc =? 0)%Z
              | SpawnFailed FileNotFoundError => Ret false
              | SpawnFailed e => Raise (OSError e)
              end = Ret false).
  { destruct H as [(rc & -> & Hrc)| ->]; [|reflexivity].
    f_equal. now apply Z.eqb_neq. }
  rewrite E. simpl. now repeat split.
Qed.



(** X13: With a format the parser accepts, every command the program hands to
    the operating system is the probe or the conversion of a discovered
    file with one of the four encoder settings; a command without an
    encoder is never built. *)
Theorem main_commands args (w : W) cmd :
  In (args_format args) format_choices ->
  In cmd (spawned (core_events (snd (main args w)))) ->
  cmd = probe_cmd \/
  exists f enc,
    In f (scan (args_recursive args) (Pathlib.Path (args_input_dir args))
            (os_stat (Pathlib.Path (args_input_dir args))
               (snd (os_spawn probe_cmd w)))) /\
    In enc encoder_settings /\
    cmd = (["ffmpeg"; "-i"; Pathlib.str f] ++ enc)
          ++ ["-y"; Pathlib.str (output_file_in (out_dir_of f (args_output args))
                                   f (args_format args))].
Proof.
  intros Hf Hin.
  assert (Conv : forall c,
    In c (spawned (events_of
            (batch_convert (args_input_dir args) (args_format args)
               (args_output args) (args_quality args) (args_recursive args)
               (snd (os_spawn probe_cmd w))))) ->
    exists f enc,
      In f (scan (args_recursive args) (Pathlib.Path (args_input_dir args))
              (os_stat (Pathlib.Path (args_input_dir args))
                 (snd (os_spawn probe_cmd w)))) /\
      In enc encoder_settings /\
      c = (["ffmpeg"; "-i"; Pathlib.str f] ++ enc)
          ++ ["-y"; Pathlib.str (output_file_in (out_dir_of f (args_output args))
                                   f (args_format args))]).
  { intros c Hc. rewrite batch_convert_spawned in Hc. cbv zeta in Hc.
    destruct (py_encodable (args_format args) && py_encodable (args_quality args));
      [|destruct Hc].
    match type of Hc with
    | In _ (spawned (events_of (batch_loop ?fs ?i ?n ?a ?b ?q ?x ?y ?ww))) =>
        destruct (batch_loop_spawned_prefix fs i n a b q x y ww) as [k Hk]
    end.
    rewrite Hk in Hc. apply in_firstn_in in Hc.
    apply in_map_iff in Hc as (f & <- & Hfin).
    exists f, (codec_args (args_format args) (args_quality args)).
    split; [exact Hfin|]. split; [now apply codec_args_known|reflexivity]. }
  unfold main in Hin. rewrite check_ffmpeg_run in Hin.
  destruct (match fst (os_spawn probe_cmd w) with
            | Exited rc => Ret (rc =? 0)%Z
            | SpawnFailed FileNotFoundError => Ret false
            | SpawnFailed e => Raise (OSError e)
            end) as [[|]|e].
  - unfold events_of in Conv.
    destruct (batch_convert _ _ _ _ _ (snd (os_spawn probe_cmd w)))
      as [[[u|e] w2] t2]; simpl in Hin, Conv;
      rewrite core_events_map in Hin;
      (destruct Hin as [<-|Hin]; [now left|right; now apply Conv]).
  - simpl in Hin. destruct Hin as [<-|[]]. now left.
  - simpl in Hin. destruct Hin as [<-|[]]. now left.
Qed.

End MainProgram.

(** ** Concrete runs for the further properties *)


Lemma report_matches_lines_witness :
  2 = ok_lines (events_of (batch_convert "music" "wav" (Some "out/x") "high" true
                             (music_world [Exited 0; Exited 1; Exited 0])))
  /\ 1 = failed_lines (events_of (batch_convert "music" "wav" (Some "out/x") "high"
                                    true (music_world [Exited 0; Exited 1; Exited 0])))
  /\ List.length
       (announced (events_of (batch_convert "music" "wav" (Some "out/x") "high" true
                                (music_world [Exited 0; Exited 1; Exited 0]))))
     = 2 + 1.
Proof.
  eapply (report_matches_lines (platform := sim_platform)
            "music" "wav" (Some "out/x") "high" true
            (music_world [Exited 0; Exited 1; Exited 0]));
    [reflexivity|simpl; auto 30|simpl; auto 30].
Defined.


Lemma main_stops_without_tool_witness :
  fst (fst (main (mkArgs "music" "mp3" None "high" false) (music_world [])))
  = SystemExit 1
  /\ core_events (snd (main (mkArgs "music" "mp3" None "high" false) (music_world [])))
     = [Spawn probe_cmd].
Proof.
  destruct (main_stops_without_tool (platform := sim_platform)
              (mkArgs "music" "mp3" None "high" false) (music_world [])
              (or_intror eq_refl)) as (H1 & _ & _ & H4).
  split; [exact H1|exact H4].
Defined.


Lemma main_commands_witness :
  ["ffmpeg"; "-i"; "music/a.m4a"; "-codec:a"; "pcm_s16le"; "-y"; "music/a.wav"]
  = probe_cmd
  \/ exists f enc,
       In f (scan false (Pathlib.Path "music")
               (os_stat (Pathlib.Path "music")
                  (snd (os_spawn probe_cmd (music_world [Exited 0; Exited 0])))))
       /\ In enc encoder_settings
       /\ ["ffmpeg"; "-i"; "music/a.m4a"; "-codec:a"; "pcm_s16le"; "-y"; "music/a.wav"]
          = (["ffmpeg"; "-i"; Pathlib.str f] ++ enc)
            ++ ["-y"; Pathlib.str (output_file_in (out_dir_of f None) f "wav")].
Proof.
  apply (main_commands (platform := sim_platform)
           (mkArgs "music" "wav" None "low" false)
           (music_world [Exited 0; Exited 0])).
  - simpl. auto.
  - simpl. auto.
Defined.

(** ** Directories made by a batch *)

Section BatchDirectories.

Context {W : Type} {platform : Platform W}.





End BatchDirectories.
